(** * train_angle.py: the data-normalisation glue of the AnglE training script

    A shallow embedding of [train_angle.py]: the task table, the four loaders
    (hub dataset rows, distilled STS-B JSONL, AllNLI gzip TSV, C-STS CSV), the
    partition assembly and the mode dispatch, followed by the properties the
    specification states about them.

    Conventions.
    - A Python [dict] with string keys is a [gmap string value]; [obj[k]] is a
      lookup that raises [KeyError] when the key is missing.
    - A Python [str] is a Rocq [string], one character per code point (code
      points below 256).
    - A Python [float] is a binary64 primitive [float]; a Python [int] is a [Z].
    - An exception is the [Raise] branch of [result]; statements are sequenced
      with the bind of that monad, in source order.
    - Whatever the script obtains from outside (files, the dataset hub, the
      embedding library, CPython's text/number conversions) is read from a
      [world] record, over which every theorem is universally quantified. *)

From Stdlib Require Import ZArith String Ascii Floats.
From stdpp Require Import base option list gmap strings pretty.

Open Scope Z_scope.
Open Scope string_scope.

(** ** Values, exceptions and the result monad *)

(** The values held by the cells of a row: [None], [bool], [int], [float]
    and [str]. *)
Inductive value :=
  | VNone
  | VBool (b : bool)
  | VInt (z : Z)
  | VFloat (f : float)
  | VStr (s : string).

Inductive exn :=
  | AssertionError
  | KeyError (key : value)
  | NameError (name : string)
  | ValueError (msg : string)
  | TypeError
  | AttributeError
  | OverflowError
  | NotImplementedError
  | OSError (path : string).

Inductive result (A : Type) :=
  | Ok (a : A)
  | Raise (e : exn).
Arguments Ok {A} a.
Arguments Raise {A} e.

Definition bind {A B : Type} (m : result A) (k : A -> result B) : result B :=
  match m with
  | Ok a => k a
  | Raise e => Raise e
  end.

Notation "x <- m ;; k" := (bind m (fun x => k))
  (at level 100, m at next level, right associativity).

(** [for x in xs: f x], collecting the results; the first exception ends the loop. *)
Fixpoint for_each {A B : Type} (f : A -> result B) (xs : list A) : result (list B) :=
  match xs with
  | [] => Ok []
  | x :: xs' => y <- f x;; ys <- for_each f xs';; Ok (y :: ys)
  end.

(** ** Rows and the built-in conversions *)

(** A dataset row, a JSON object, a csv row and a normalised record are all
    dictionaries from column names to values. *)
Abbreviation row := (gmap string value).
Abbreviation record := (gmap string value).

(** [obj[k]] *)
Definition getitem (obj : row) (k : string) : result value :=
  match obj !! k with
  | Some v => Ok v
  | None => Raise (KeyError (VStr k))
  end.

(** CPython's conversions between text and numbers, not part of the script. *)
Record text_conv := {
  float_of_text : string -> option float;   (* float(s), None: ValueError *)
  int_of_text : string -> option Z;         (* int(s), None: ValueError *)
  text_of_float : float -> string           (* str(x) for a float x *)
}.

(** [float(n)] for an int: round to nearest even, as CPython does. *)
Definition float_of_Z (z : Z) : float :=
  SF2Prim (binary_normalize prec emax z 0 false).

(** [float(v)] *)
Definition py_float (c : text_conv) (v : value) : result float :=
  match v with
  | VNone => Raise TypeError
  | VBool b => Ok (if b then 1%float else 0%float)
  | VInt z =>
      let f := float_of_Z z in
      if is_infinity f then Raise OverflowError else Ok f
  | VFloat f => Ok f
  | VStr s =>
      match float_of_text c s with
      | Some f => Ok f
      | None => Raise (ValueError "could not convert string to float")
      end
  end.

(** [int(v)]: a float is truncated towards zero. *)
Definition py_int (c : text_conv) (v : value) : result Z :=
  match v with
  | VNone => Raise TypeError
  | VBool b => Ok (if b then 1 else 0)
  | VInt z => Ok z
  | VFloat f =>
      match Prim2SF f with
      | S754_nan => Raise (ValueError "cannot convert float NaN to integer")
      | S754_infinity _ => Raise OverflowError
      | S754_zero _ => Ok 0
      | S754_finite s m e =>
          let a := Z.shiftl (Z.pos m) e in Ok (if s then - a else a)
      end
  | VStr s =>
      match int_of_text c s with
      | Some z => Ok z
      | None => Raise (ValueError "invalid literal for int() with base 10")
      end
  end.

(** [str(v)] *)
Definition py_str (c : text_conv) (v : value) : string :=
  match v with
  | VNone => "None"
  | VBool b => if b then "True" else "False"
  | VInt z => pretty z
  | VFloat f => text_of_float c f
  | VStr s => s
  end.

(** The integer a float is equal to, when there is one. *)
Definition Z_of_float_exact (f : float) : option Z :=
  match Prim2SF f with
  | S754_zero _ => Some 0
  | S754_finite s m e =>
      let a := Z.shiftl (Z.pos m) e in
      if Z.eqb (Z.shiftl a (- e)) (Z.pos m) then Some (if s then - a else a) else None
  | _ => None
  end.

(** [bool] is a subclass of [int]. *)
Definition int_like (v : value) : option Z :=
  match v with
  | VBool b => Some (if b then 1 else 0)
  | VInt z => Some z
  | _ => None
  end.

(** [v1 == v2]: [bool] and [int] compare as integers, an integer and a float
    by exact value, floats as IEEE 754 does (so [nan != nan]); values of
    unrelated types are different. *)
Definition py_eq (v1 v2 : value) : bool :=
  match v1, v2 with
  | VNone, VNone => true
  | VStr s1, VStr s2 => bool_decide (s1 = s2)
  | VFloat f1, VFloat f2 => PrimFloat.eqb f1 f2
  | VFloat f, v | v, VFloat f =>
      match Z_of_float_exact f, int_like v with
      | Some z, Some z' => Z.eqb z z'
      | _, _ => false
      end
  | _, _ =>
      match int_like v1, int_like v2 with
      | Some z1, Some z2 => Z.eqb z1 z2
      | _, _ => false
      end
  end.

(** ** Strings: [str.isspace], [str.strip], [str.split] *)

(** White space among the code points below 256: TAB..CR, FS..US, SPACE,
    NEL (0x85) and NBSP (0xA0). *)
Definition isspace (a : ascii) : bool :=
  let n := N_of_ascii a in
  ((9 <=? n) && (n <=? 13) || (28 <=? n) && (n <=? 32)
   || (n =? 133) || (n =? 160))%N.

Definition is_empty (s : string) : bool :=
  match s with
  | EmptyString => true
  | String _ _ => false
  end.

Fixpoint lstrip (s : string) : string :=
  match s with
  | EmptyString => EmptyString
  | String a s' => if isspace a then lstrip s' else s
  end.

Fixpoint rstrip (s : string) : string :=
  match s with
  | EmptyString => EmptyString
  | String a s' =>
      let r := rstrip s' in
      if isspace a && is_empty r then EmptyString else String a r
  end.

(** [s.strip()] *)
Definition strip (s : string) : string := rstrip (lstrip s).

(** [s.split()]: the maximal runs of characters that are not white space;
    [cur] is the run being read. *)
Fixpoint split_from (cur : string) (s : string) : list string :=
  match s with
  | EmptyString => if is_empty cur then [] else [cur]
  | String a s' =>
      if isspace a
      then (if is_empty cur then split_from "" s' else cur :: split_from "" s')
      else split_from (cur ++ String a "") s'
  end.

Definition split (s : string) : list string := split_from "" s.

(** [v.strip()] and [v.split()] on a cell: only a [str] has these methods. *)
Definition strip_value (v : value) : result string :=
  match v with
  | VStr s => Ok (strip s)
  | _ => Raise AttributeError
  end.

Definition split_value (v : value) : result (list string) :=
  match v with
  | VStr s => Ok (split s)
  | _ => Raise AttributeError
  end.

(** ** The outside world and the command line *)

(** What the script reads from outside. [load_dataset] is the hub loader
    applied to its positional arguments, [load_dataset_csv] the same loader
    with the csv builder and a [data_files] table; both return the splits by
    name. [from_list] and [shuffle] are [Dataset.from_list] and
    [Dataset.shuffle]. The last fields stand for the embedding library:
    building or restoring a model, tokenising a partition, and the calls on a
    model. A call that returns nothing gives [None] when it succeeds. *)
Record world := {
  conv : text_conv;
  load_dataset : list string -> result (gmap string (list row));
  load_dataset_csv : list (string * string) -> result (gmap string (list row));
  read_lines : string -> result (list string);
  json_loads : string -> result row;
  read_tsv_gz : string -> result (list row);
  from_list : list record -> option exn;
  shuffle : list record -> list record;
  build_model : string -> bool -> option exn;
  from_pretrained : option string -> option exn;
  tokenize : list record -> option exn;
  fit : list record -> option (list record) -> option exn;
  evaluate : list record -> result (float * float);
  similarity : string -> string -> result float
}.

(** The parsed command line, restricted to the flags the script itself
    branches on; the hyper-parameters are handed to the library untouched. *)
Record args := {
  mode : string;
  task : string;
  save_dir : option string;
  do_eval : Z;
  debug_sample_size : option Z;
  model_name : string
}.

(** A value of [TASK_MAPPING]: a string, or a tuple of strings. *)
Inductive target :=
  | Name (s : string)
  | Tuple (l : list string).

Definition TASK_MAPPING : gmap string target :=
  {[ "NLI-STS" := Name "nli-sts";
     "STS-B" := Tuple ["mteb/stsbenchmark-sts"];
     "MRPC" := Tuple ["SetFit/mrpc"];
     "QQP" := Tuple ["SetFit/qqp"];
     "QNLI" := Tuple ["SetFit/qnli"];
     "RTE" := Tuple ["SetFit/rte"] ]}.

(** [PROMPT.format(text=...)]: the template puts a double quote (code point
    34, [dquote]) before and after the text and once more at the very end. *)
Definition dquote : string := String (ascii_of_nat 34) "".

Definition PROMPT (text : string) : string :=
  "Summarize sentence " ++ dquote ++ text ++ dquote ++ " in one word:" ++ dquote.

(** [*task_name]: a tuple unpacks into its items, a string into its characters. *)
Fixpoint chars (s : string) : list string :=
  match s with
  | EmptyString => []
  | String a s' => String a "" :: chars s'
  end.

Definition star (t : target) : list string :=
  match t with
  | Name s => chars s
  | Tuple l => l
  end.

(** [ds[split_name]] on the splits a loader returned. *)
Definition getsplit (ds : gmap string (list row)) (split_name : string) : result (list row) :=
  match ds !! split_name with
  | Some rows => Ok rows
  | None => Raise (KeyError (VStr split_name))
  end.

(** ** [load_data]: hub dataset rows *)

(** [label_mapping.get(key, default)] *)
Definition mapping_get (label_mapping : gmap string Z) (key : string) (default : value) : value :=
  match label_mapping !! key with
  | Some z => VInt z
  | None => default
  end.

Definition columns (task : string) : string * string :=
  if bool_decide (task ∈ ["MRPC"; "QQP"; "QNLI"; "RTE"])
  then ("text1", "text2")
  else ("sentence1", "sentence2").

Definition label_mapping (task : string) : gmap string Z :=
  if bool_decide (task ∈ ["QNLI"; "RTE"])
  then {[ "1" := 0; "0" := 1 ]}
  else ∅.

(** [int(label_mapping.get(str(l), l))] *)
Definition remap (c : text_conv) (task : string) (l : value) : result Z :=
  py_int c (mapping_get (label_mapping task) (py_str c l) l).

(** The body of the comprehension of [load_data], for one row; the two
    reads of [obj['label']] are one read here. *)
Definition normalize (c : text_conv) (task : string) (obj : row) : result record :=
  let '(col1, col2) := columns task in
  t1 <- getitem obj col1;;
  t2 <- getitem obj col2;;
  label <-
    (if bool_decide (task = "STS-B")
     then s <- getitem obj "score";; f <- py_float c s;; Ok (VFloat f)
     else l <- getitem obj "label";; z <- remap c task l;; Ok (VInt z));;
  Ok ({[ "text1" := t1; "text2" := t2; "label" := label ]} : record).

Definition load_data (w : world) (task : string) (task_name : target)
    (split_name : string) : result (list record) :=
  ds <- load_dataset w (star task_name);;
  rows <- getsplit ds split_name;;
  for_each (normalize (conv w) task) rows.

(** ** [load_stsb_llm]: the distilled STS-B files *)

(** The record every STS-style source is normalised to. *)
Definition sts_record (c : text_conv) (obj : row) : result record :=
  t1 <- getitem obj "sentence1";;
  t2 <- getitem obj "sentence2";;
  s <- getitem obj "score";;
  f <- py_float c s;;
  Ok ({[ "text1" := t1; "text2" := t2; "label" := VFloat f ]} : record).

(** [len(set(obj['sentence1'].split()) - set(obj['sentence2'].split()))] *)
Definition word_diff (obj : row) : result nat :=
  v1 <- getitem obj "sentence1";;
  ws1 <- split_value v1;;
  v2 <- getitem obj "sentence2";;
  ws2 <- split_value v2;;
  Ok (size ((list_to_set ws1 : gset string) ∖ list_to_set ws2)).

(** The guard [skip_neg and obj['score'] == 0 and len(...) < 5], evaluated
    from left to right and no further than needed. *)
Definition skip (skip_neg : bool) (obj : row) : result bool :=
  if skip_neg then
    s <- getitem obj "score";;
    if py_eq s (VInt 0) then n <- word_diff obj;; Ok (bool_decide (n < 5)%nat)
    else Ok false
  else Ok false.

(** One line of a file: [None] when the line adds nothing to [data]. *)
Definition load_line (w : world) (skip_neg : bool) (line : string) : result (option record) :=
  let line := strip line in
  if is_empty line then Ok None
  else
    obj <- json_loads w line;;
    b <- skip skip_neg obj;;
    if b : bool then Ok None
    else r <- sts_record (conv w) obj;; Ok (Some r).

Definition load_file (w : world) (skip_neg : bool) (fpath : string) : result (list record) :=
  lines <- read_lines w fpath;;
  rs <- for_each (load_line w skip_neg) lines;;
  Ok (omap id rs).

(** [fpaths] is one path or a list of paths; one path is made a list. *)
Definition as_list (fpaths : string + list string) : list string :=
  match fpaths with
  | inl p => [p]
  | inr ps => ps
  end.

Definition load (w : world) (fpaths : string + list string) (skip_neg : bool) : result (list record) :=
  ds <- for_each (load_file w skip_neg) (as_list fpaths);;
  Ok (concat ds).

Definition stsb_file (n : string) : string :=
  "data/llm_supervised_stsb/stsb." ++ n ++ ".train.jsonl".

Definition load_stsb_llm (w : world) (task : string) (split_name : string) : result (list record) :=
  if bool_decide (split_name = "train") then
    if bool_decide (task = "STS-B-ChatGLM") then load w (inl (stsb_file "chatglm")) false
    else if bool_decide (task = "STS-B-LLaMA") then load w (inl (stsb_file "llama")) false
    else if bool_decide (task = "STS-B-ChatGPT") then load w (inl (stsb_file "chatgpt")) true
    else if bool_decide (task = "STS-B-ALL")
      then load w (inr (stsb_file <$> ["chatgpt"; "llama"; "chatglm"])) true
    else Raise NotImplementedError
  else
    ds <- load_dataset w ["./data/mteb___stsbenchmark-sts"];;
    rows <- getsplit ds split_name;;
    for_each (sts_record (conv w)) rows.

(** ** [load_nli_data]: AllNLI and the STS test sets *)

Module Nli.

Definition label_mapping : gmap string Z :=
  {[ "entailment" := 1; "neutral" := 1; "contradiction" := 0 ]}.

(** [label_mapping[v]] *)
Definition mapping_item (v : value) : result Z :=
  match v with
  | VStr s =>
      match label_mapping !! s with
      | Some z => Ok z
      | None => Raise (KeyError v)
      end
  | _ => Raise (KeyError v)
  end.

(** The body of the loop of [load_all_nli], for one row of the file. *)
Definition nli_row (exclude_neutral : bool) (r : row) : result (option record) :=
  sp <- getitem r "split";;
  if py_eq sp (VStr "train") then
    l <- getitem r "label";;
    if negb (py_eq l (VStr "neutral")) then
      b <- (if exclude_neutral
           then l' <- getitem r "label";; Ok (py_eq l' (VStr "neutral"))
           else Ok false);;
      if b : bool then Ok None
      else
        v1 <- getitem r "sentence1";;
        sent1 <- strip_value v1;;
        v2 <- getitem r "sentence2";;
        sent2 <- strip_value v2;;
        l'' <- getitem r "label";;
        z <- mapping_item l'';;
        Ok (Some ({[ "text1" := VStr sent1; "text2" := VStr sent2; "label" := VInt z ]} : record))
    else Ok None
  else Ok None.

Definition load_rows (exclude_neutral : bool) (rows : list row) : result (list record) :=
  rs <- for_each (nli_row exclude_neutral) rows;;
  Ok (omap id rs).

Definition load_all_nli (w : world) (exclude_neutral : bool) : result (list record) :=
  rows <- read_tsv_gz w "./data/AllNLI.tsv.gz";;
  load_rows exclude_neutral rows.

Definition load_test (w : world) (path : string) : result (list record) :=
  ds <- load_dataset w [path];;
  rows <- getsplit ds "test";;
  for_each (sts_record (conv w)) rows.

Definition load_sts (w : world) : result (list record) :=
  years <- for_each (fun i : Z => load_test w ("./data/mteb___sts" ++ pretty i ++ "-sts"))
                   (seqZ 12 5);;
  b <- load_test w "./data/mteb___stsbenchmark-sts";;
  r <- load_test w "./data/mteb___sickr-sts";;
  Ok (concat years ++ b ++ r)%list.

End Nli.

Definition load_nli_data (w : world) (exclude_neutral : bool) : result (list record * list record) :=
  nli <- Nli.load_all_nli w exclude_neutral;;
  sts <- Nli.load_sts w;;
  Ok (nli, sts).

(** ** [load_csts_data]: the C-STS csv files *)

Module Csts.

(** The variables of the loop of [load_data]. The three containers are
    filled on every row; nothing reads them. A Python [set] of labels is kept
    as the list of its elements, no two of them equal under [==]. *)
Record state := {
  data : list record;
  sentence_condition_map : gmap (string * string) (gset string);
  sentence_label_map : gmap (string * string) (list value);
  all_conditions : gset string
}.

Definition init : state :=
  {| data := []; sentence_condition_map := ∅; sentence_label_map := ∅; all_conditions := ∅ |}.

(** [s.add(v)] on a set of labels. *)
Definition set_add (v : value) (s : list value) : list value :=
  if existsb (py_eq v) s then s else (s ++ [v])%list.

(** One turn of the loop. After the three assignments [obj['sentence1']],
    [obj['sentence2']] and [obj['condition']] hold [s1], [s2] and [c]. *)
Definition step (st : state) (obj : row) : result state :=
  v1 <- getitem obj "sentence1";;
  s1 <- strip_value v1;;
  let obj := <["sentence1" := VStr s1]> obj in
  v2 <- getitem obj "sentence2";;
  s2 <- strip_value v2;;
  let obj := <["sentence2" := VStr s2]> obj in
  vc <- getitem obj "condition";;
  c <- strip_value vc;;
  let obj := <["condition" := VStr c]> obj in
  let conditions := {[c]} ∪ all_conditions st in
  let pair_conditions :=
    <[(s1, s2) := {[c]} ∪ default ∅ (sentence_condition_map st !! (s1, s2))]>
      (sentence_condition_map st) in
  l <- getitem obj "label";;
  let pair_labels :=
    <[(s1, s2) := set_add l (default [] (sentence_label_map st !! (s1, s2)))]>
      (sentence_label_map st) in
  l' <- getitem obj "label";;
  c' <- getitem obj "condition";;
  let r : record :=
    {[ "text1" := VStr s1; "text2" := VStr s2; "label" := l'; "condition" := c' ]} in
  Ok {| data := (data st ++ [r])%list;
        sentence_condition_map := pair_conditions;
        sentence_label_map := pair_labels;
        all_conditions := conditions |}.

(** [for obj in ds: ...] *)
Fixpoint loop (st : state) (ds : list row) : result state :=
  match ds with
  | [] => Ok st
  | obj :: ds' => st' <- step st obj;; loop st' ds'
  end.

Definition load_data (ds : list row) : result (list record) :=
  st <- loop init ds;;
  Ok (data st).

Definition data_files : list (string * string) :=
  [ ("train", "./data/csts_train.csv");
    ("validation", "./data/csts_validation.csv");
    ("test", "./data/csts_test.csv") ].

End Csts.

Definition load_csts_data (w : world)
    : result (list record * list record * list record) :=
  csts_dataset <- load_dataset_csv w Csts.data_files;;
  tr <- getsplit csts_dataset "train";;
  train <- Csts.load_data tr;;
  va <- getsplit csts_dataset "validation";;
  valid <- Csts.load_data va;;
  te <- getsplit csts_dataset "test";;
  test <- Csts.load_data te;;
  Ok (train, valid, test).

(** ** The script: task resolution, partitions, assembly *)

(** [assert args.task in TASK_MAPPING; task_name = TASK_MAPPING[args.task]],
    with assertions enabled as they are by default. *)
Definition resolve_task (a : args) : result target :=
  match TASK_MAPPING !! task a with
  | Some t => Ok t
  | None => Raise AssertionError
  end.

(** [train_data, valid_data, test_data] once the loading branch has run;
    [None] is Python's [None]. *)
Record partitions := {
  train_data : option (list record);
  valid_data : option (list record);
  test_data : option (list record)
}.

Definition load_partitions (w : world) (a : args) (task_name : target) : result partitions :=
  if bool_decide (task a = "NLI-STS") then
    p <- load_nli_data w true;;
    Ok {| train_data := Some p.1; valid_data := None; test_data := Some p.2 |}
  else
    tr <- load_data w (task a) task_name "train";;
    va <- load_data w (task a) task_name "validation";;
    te <- load_data w (task a) task_name "test";;
    let te := if bool_decide (task a ∈ ["QQP"; "QNLI"; "RTE"]) then va else te in
    Ok {| train_data := Some tr; valid_data := Some va; test_data := Some te |}.

(** [l[:n]] *)
Definition slice_to {A : Type} (n : Z) (l : list A) : list A :=
  if (0 <=? n)%Z then take (Z.to_nat n) l
  else take (Z.to_nat (Z.of_nat (length l) + n)) l.

(** A call that returns nothing: [None] when it succeeds. *)
Definition check (o : option exn) : result unit :=
  match o with
  | None => Ok tt
  | Some e => Raise e
  end.

(** [train_data] as it is rebound when [debug_sample_size] is set. *)
Definition sample (a : args) (train : list record) : list record :=
  match debug_sample_size a with
  | Some n => slice_to n train
  | None => train
  end.

(** [dataset[k] = Dataset.from_list(d)] *)
Definition add_part (w : world) (k : string) (d : list record)
    (dataset : gmap string (list record)) : result (gmap string (list record)) :=
  _ <- check (from_list w d);;
  Ok (<[k := d]> dataset).

(** The dictionary handed to [DatasetDict]. *)
Definition assemble (w : world) (a : args) (p : partitions)
    : result (gmap string (list record)) :=
  let dataset : gmap string (list record) := ∅ in
  dataset <-
    match train_data p with
    | Some train => add_part w "train" (sample a train) dataset
    | None => Ok dataset
    end;;
  dataset <-
    match valid_data p with
    | Some valid => add_part w "validation" valid dataset
    | None => Ok dataset
    end;;
  match test_data p with
  | Some test => add_part w "test" test dataset
  | None => Ok dataset
  end.

(** The names of the module that are bound to a list of records or to
    [None] when the mode is dispatched. *)
Definition globals (a : args) (p : partitions) : gmap string (option (list record)) :=
  {[ "train_data" := sample a <$> train_data p;
     "valid_data" := valid_data p;
     "test_data" := test_data p ]}.

(** ** The script: mode dispatch *)

(** What the run does to the outside: calls into the embedding library and
    the file it writes. *)
Inductive event :=
  | Fit (train : list record) (valid : option (list record))
  | Evaluate (test : list record)
  | Encode (text1 text2 : string)
  | Dump (path : string) (results : list (string * float)).

(** A computation that leaves a trace of events and returns or raises. *)
Definition prog (A : Type) : Type := list event * result A.

Definition lift {A : Type} (r : result A) : prog A := ([], r).

Definition emit (e : event) : prog unit := ([e], Ok tt).

Definition call (o : option exn) : prog unit := lift (check o).

Definition pbind {A B : Type} (m : prog A) (k : A -> prog B) : prog B :=
  match m with
  | (t, Ok a) => let '(t', r) := k a in ((t ++ t')%list, r)
  | (t, Raise e) => (t, Raise e)
  end.

Notation "x <~ m ;; k" := (pbind m (fun x => k))
  (at level 100, m at next level, right associativity).

(** [s.lower()] on code points below 256: A..Z and the capital letters of
    Latin-1 (0xC0..0xDE but the multiplication sign 0xD7). *)
Definition lower_char (a : ascii) : ascii :=
  let n := N_of_ascii a in
  if ((65 <=? n) && (n <=? 90) || (192 <=? n) && (n <=? 222) && negb (n =? 215))%N
  then ascii_of_N (n + 32)
  else a.

Fixpoint lower (s : string) : string :=
  match s with
  | EmptyString => EmptyString
  | String a s' => String (lower_char a) (lower s')
  end.

(** [sub in s] *)
Fixpoint contains (sub s : string) : bool :=
  String.prefix sub s ||
  match s with
  | EmptyString => false
  | String _ s' => contains sub s'
  end.

(** [dataset[k]] *)
Definition getpart (dataset : gmap string (list record)) (k : string) : result (list record) :=
  match dataset !! k with
  | Some d => Ok d
  | None => Raise (KeyError (VStr k))
  end.

(** [d.map(AngleDataTokenizer(...))] *)
Definition tokenized (w : world) (d : list record) : prog (list record) :=
  _ <~ call (tokenize w d);;
  lift (Ok d).

(** Reading a global name, and iterating over its value. *)
Definition lookup_name (ns : gmap string (option (list record))) (n : string)
    : result (list record) :=
  match ns !! n with
  | Some (Some l) => Ok l
  | Some None => Raise TypeError
  | None => Raise (NameError n)
  end.

(** [os.path.join(save_dir, name)] for a relative [name]. *)
Definition path_join (save_dir : option string) (name : string) : result string :=
  match save_dir with
  | None => Raise TypeError
  | Some d =>
      if is_empty d then Ok name
      else if String.prefix "/" (String.substring (String.length d - 1) 1 d)
      then Ok (d ++ name)
      else Ok (d ++ "/" ++ name)
  end.

Definition train_mode (w : world) (a : args) (dataset : gmap string (list record)) : prog unit :=
  _ <~ call (build_model w (model_name a) (contains "llama" (lower (model_name a))));;
  train <~ lift (getpart dataset "train");;
  train_ds <~ tokenized w (shuffle w train);;
  valid_ds <~ (if bool_decide (do_eval a ≠ 0)
               then valid <~ lift (getpart dataset "validation");;
                    d <~ tokenized w valid;; lift (Ok (Some d))
               else lift (Ok None));;
  _ <~ emit (Fit train_ds valid_ds);;
  call (fit w train_ds valid_ds).

Definition test_mode (w : world) (a : args) (dataset : gmap string (list record)) : prog unit :=
  _ <~ call (from_pretrained w (save_dir a));;
  test <~ lift (getpart dataset "test");;
  test_ds <~ tokenized w test;;
  _ <~ emit (Evaluate test_ds);;
  _ <~ lift (evaluate w test_ds);;
  lift (Ok tt).

(** The body of the loop of the [test_csts] branch, for the example at
    index [i]; [similarity] stands for encoding the two prompts, normalising
    the two vectors and summing their product. *)
Definition csts_example (w : world) (i : nat) (obj : record) : prog (string * float) :=
  t1 <~ lift (getitem obj "text1");;
  _ <~ lift (getitem obj "condition");;
  let text1 := PROMPT (py_str (conv w) t1) in
  t2 <~ lift (getitem obj "text2");;
  _ <~ lift (getitem obj "condition");;
  let text2 := PROMPT (py_str (conv w) t2) in
  _ <~ emit (Encode text1 text2);;
  cos <~ lift (similarity w text1 text2);;
  lift (Ok (pretty (Z.of_nat i), cos)).

Fixpoint csts_loop (w : world) (i : nat) (objs : list record) : prog (list (string * float)) :=
  match objs with
  | [] => lift (Ok [])
  | obj :: objs' =>
      r <~ csts_example w i obj;;
      rs <~ csts_loop w (S i) objs';;
      lift (Ok (r :: rs))
  end.

Definition test_csts_mode (w : world) (a : args)
    (ns : gmap string (option (list record))) : prog unit :=
  _ <~ call (from_pretrained w (save_dir a));;
  csts_test_data <~ lift (lookup_name ns "csts_test_data");;
  results <~ csts_loop w 0 csts_test_data;;
  save_path <~ lift (path_join (save_dir a) "test_prediction.json");;
  emit (Dump save_path results).

Definition dispatch (w : world) (a : args) (p : partitions)
    (dataset : gmap string (list record)) : prog unit :=
  if bool_decide (mode a = "train") then train_mode w a dataset
  else if bool_decide (mode a = "test") then test_mode w a dataset
  else if bool_decide (mode a = "test_csts") then test_csts_mode w a (globals a p)
  else lift (Raise (ValueError ("not support " ++ mode a))).

(** The whole script, from the parsed command line on. The [print]
    statements, the seeding of the random generators and the wrapping of the
    dictionary in a [DatasetDict] play no part in what follows and are left
    out. *)
Definition main (w : world) (a : args) : prog unit :=
  task_name <~ lift (resolve_task a);;
  p <~ lift (load_partitions w a task_name);;
  dataset <~ lift (assemble w a p);;
  dispatch w a p dataset.

(** ** Vocabulary of the statements *)

(** The range of the similarity scores of the STS benchmark. *)
Definition in_range (f : float) : bool :=
  PrimFloat.leb 0%float f && PrimFloat.leb f 5%float.

Definition label_in_range (r : record) : Prop :=
  exists f, r !! "label" = Some (VFloat f) /\ in_range f = true.

(** A row of the STS schema whose score is above the benchmark range. *)
Definition row_score_7_5 : row :=
  {[ "sentence1" := VStr "a man"; "sentence2" := VStr "a dog"; "score" := VFloat 7.5%float ]}.

Definition record_label_7_5 : record :=
  {[ "text1" := VStr "a man"; "text2" := VStr "a dog"; "label" := VFloat 7.5%float ]}.

(** The two text fields of a record: present, holding a string that is not
    blank, holding a string that is its own trimming. *)
Definition has_texts (r : record) : Prop :=
  is_Some (r !! "text1") /\ is_Some (r !! "text2").

Definition nonblank (r : record) (k : string) : Prop :=
  exists s, r !! k = Some (VStr s) /\ strip s <> "".

Definition texts_nonblank (r : record) : Prop :=
  nonblank r "text1" /\ nonblank r "text2".

Definition trimmed (r : record) (k : string) : Prop :=
  exists s, r !! k = Some (VStr s) /\ strip s = s.

Definition texts_trimmed (r : record) : Prop :=
  trimmed r "text1" /\ trimmed r "text2".

(** The record holds the cells [c1] and [c2] of the row as they are. *)
Definition copies (c1 c2 : string) (obj : row) (r : record) : Prop :=
  r !! "text1" = obj !! c1 /\ r !! "text2" = obj !! c2 /\ has_texts r.

(** The record the C-STS loader makes of a row. *)
Definition csts_record (obj : row) (r : record) : Prop :=
  exists s1 s2 c l,
    obj !! "sentence1" = Some (VStr s1) /\ obj !! "sentence2" = Some (VStr s2)
    /\ obj !! "condition" = Some (VStr c) /\ obj !! "label" = Some l
    /\ r = {[ "text1" := VStr (strip s1); "text2" := VStr (strip s2);
              "label" := l; "condition" := VStr (strip c) ]}.

(** The sentence pair and the condition of a record. *)
Definition triple (r : record) : option value * option value * option value :=
  (r !! "text1", r !! "text2", r !! "condition").

(** The first [n] elements of [l], the whole of [l] when it has fewer. *)
Definition first_records (n : Z) (l out : list record) : Prop :=
  out = take (Z.to_nat n) l.

(** The string is empty or begins with a character that is not white space. *)
Definition starts_clean (s : string) : Prop :=
  match s with
  | EmptyString => True
  | String a _ => isspace a = false
  end.

(** A line of a distilled file that is not blank. *)
Definition nonblank_line (line : string) : Prop := is_empty (strip line) = false.

(** The record a line of a distilled file gives when it is kept. *)
Definition line_record (w : world) (line : string) (r : record) : Prop :=
  exists obj, json_loads w (strip line) = Ok obj /\ sts_record (conv w) obj = Ok r.

(** The rows of AllNLI that pass the two tests on [split] and [label]. *)
Definition nli_kept (obj : row) : Prop :=
  exists sp l, obj !! "split" = Some sp /\ obj !! "label" = Some l
               /\ py_eq sp (VStr "train") = true /\ py_eq l (VStr "neutral") = false.

#[local] Instance nli_kept_dec (obj : row) : Decision (nli_kept obj).
Proof.
  unfold nli_kept.
  destruct (obj !! "split") as [sp|];
    [|right; intros (sp & l & H & _); discriminate].
  destruct (obj !! "label") as [l|];
    [|right; intros (sp' & l & _ & H & _); discriminate].
  destruct (py_eq sp (VStr "train")) eqn:E1;
    [|right; intros (sp' & l' & H1 & _ & H3 & _); inversion H1; subst; congruence].
  destruct (py_eq l (VStr "neutral")) eqn:E2;
    [right; intros (sp' & l' & _ & H2 & _ & H4); inversion H2; subst; congruence|].
  left. exists sp, l. repeat split; assumption.
Defined.

(** The record of a kept row: trimmed sentences, 1 for entailment and 0
    for contradiction. *)
Definition nli_record (obj : row) (r : record) : Prop :=
  exists s1 s2 l,
    obj !! "sentence1" = Some (VStr s1) /\ obj !! "sentence2" = Some (VStr s2)
    /\ obj !! "label" = Some (VStr l) /\ (l = "entailment" \/ l = "contradiction")
    /\ r = {[ "text1" := VStr (strip s1); "text2" := VStr (strip s2);
              "label" := VInt (if bool_decide (l = "entailment") then 1 else 0) ]}.

(** The containers of the C-STS loop agree with the data gathered so far:
    the conditions filed under a sentence pair are those of the records with
    that pair, and [all_conditions] holds the conditions of all records. *)
Definition csts_consistent (st : Csts.state) : Prop :=
  (forall s1 s2 c,
     c ∈ default ∅ (Csts.sentence_condition_map st !! (s1, s2)) <->
     exists r, r ∈ Csts.data st /\ r !! "text1" = Some (VStr s1)
               /\ r !! "text2" = Some (VStr s2) /\ r !! "condition" = Some (VStr c))
  /\ (forall c,
        c ∈ Csts.all_conditions st <->
        exists r, r ∈ Csts.data st /\ r !! "condition" = Some (VStr c)).

(** The seven datasets whose test splits make the test partition of the
    task NLI-STS, in the order they are read. *)
Definition sts_paths : list string :=
  [ "./data/mteb___sts12-sts"; "./data/mteb___sts13-sts"; "./data/mteb___sts14-sts";
    "./data/mteb___sts15-sts"; "./data/mteb___sts16-sts";
    "./data/mteb___stsbenchmark-sts"; "./data/mteb___sickr-sts" ].

(** ** Sample data *)

(** A C-STS row that occurs twice in a file, and the record of one occurrence. *)
Definition csts_row_dup : row :=
  {[ "sentence1" := VStr "A dog runs. "; "sentence2" := VStr "A cat sleeps.";
     "condition" := VStr " The animal"; "label" := VInt 2 ]}.

Definition csts_record_dup : record :=
  {[ "text1" := VStr "A dog runs."; "text2" := VStr "A cat sleeps.";
     "label" := VInt 2; "condition" := VStr "The animal" ]}.

(** A training row of AllNLI whose first sentence is blank, and its record. *)
Definition nli_row_blank : row :=
  {[ "split" := VStr "train"; "label" := VStr "entailment";
     "sentence1" := VStr "  "; "sentence2" := VStr "A man sleeps." ]}.

Definition nli_record_blank : record :=
  {[ "text1" := VStr ""; "text2" := VStr "A man sleeps."; "label" := VInt 1 ]}.

(** Two objects of a distilled file, both scored 0: the words of the first
    sentence that the second lacks are six in one, one in the other. *)
Definition obj_far : row :=
  {[ "sentence1" := VStr "a b c d e f"; "sentence2" := VStr "x y"; "score" := VInt 0 ]}.

Definition obj_near : row :=
  {[ "sentence1" := VStr "a man runs"; "sentence2" := VStr "a man walks"; "score" := VInt 0 ]}.

Definition record_far : record :=
  {[ "text1" := VStr "a b c d e f"; "text2" := VStr "x y"; "label" := VFloat 0%float ]}.

(** Rows of the pair schema and of the STS schema. *)
Definition pair_row (t1 t2 : string) (l : Z) : row :=
  {[ "text1" := VStr t1; "text2" := VStr t2; "label" := VInt l ]}.

Definition pair_record (t1 t2 : string) (l : Z) : record :=
  {[ "text1" := VStr t1; "text2" := VStr t2; "label" := VInt l ]}.

Definition sts_row (s1 s2 : string) (score : float) : row :=
  {[ "sentence1" := VStr s1; "sentence2" := VStr s2; "score" := VFloat score ]}.

(** A conversion table that reads no text and prints every float alike; the
    sample rows hold numbers in their numeric cells. *)
Definition plain_conv : text_conv :=
  {| float_of_text := fun _ => None;
     int_of_text := fun _ => None;
     text_of_float := fun _ => "0.0" |}.

(** A small world: one STS dataset, one pair dataset for every other hub
    name, a two-line distilled file, one AllNLI row, C-STS files with a
    repeated row, and a library whose calls all succeed. *)
Definition sample_world : world :=
  {| conv := plain_conv;
     load_dataset := fun path =>
       if bool_decide (path = ["mteb/stsbenchmark-sts"])
       then Ok {[ "train" := [sts_row "a man" "a dog" 1.5%float; row_score_7_5];
                  "validation" := [sts_row "a cat" "a cat" 5%float];
                  "test" := [row_score_7_5] ]}
       else Ok {[ "train" := [pair_row "q1" "q2" 1; pair_row "q3" "q4" 0; pair_row "q5" "q6" 1];
                  "validation" := [pair_row "v1" "v2" 0];
                  "test" := [pair_row "t1" "t2" (-1)] ]};
     load_dataset_csv := fun _ =>
       Ok {[ "train" := [csts_row_dup; csts_row_dup]; "validation" := []; "test" := [] ]};
     read_lines := fun _ => Ok ["far "; ""; "near"];
     json_loads := fun line =>
       if bool_decide (line = "far") then Ok obj_far
       else if bool_decide (line = "near") then Ok obj_near
       else Raise (ValueError "Expecting value");
     read_tsv_gz := fun _ => Ok [nli_row_blank];
     from_list := fun _ => None;
     shuffle := fun l => reverse l;
     build_model := fun _ _ => None;
     from_pretrained := fun _ => None;
     tokenize := fun _ => None;
     fit := fun _ _ => None;
     evaluate := fun _ => Ok (0.5%float, 0.5%float);
     similarity := fun _ _ => Ok 1%float |}.

(** A training row of AllNLI labelled neutral, and the record the label
    table would give it. *)
Definition nli_row_neutral : row :=
  {[ "split" := VStr "train"; "label" := VStr "neutral";
     "sentence1" := VStr "A man eats."; "sentence2" := VStr "A man is hungry." ]}.

Definition nli_record_neutral : record :=
  {[ "text1" := VStr "A man eats."; "text2" := VStr "A man is hungry."; "label" := VInt 1 ]}.

(** Command lines. *)
Definition sample_args (mode task : string) (debug_sample_size : option Z) : args :=
  {| mode := mode; task := task; save_dir := Some "ckpts"; do_eval := 1;
     debug_sample_size := debug_sample_size;
     model_name := "NousResearch/Llama-2-7b-hf" |}.

(** Partitions with a train list of three records. *)
Definition sample_partitions : partitions :=
  {| train_data := Some [pair_record "q1" "q2" 1; pair_record "q3" "q4" 0; pair_record "q5" "q6" 1];
     valid_data := Some [pair_record "v1" "v2" 0];
     test_data := Some [pair_record "v1" "v2" 0] |}.

(** The partitions the sample world gives for the task STS-B. *)
Definition sample_sts_record : record :=
  {[ "text1" := VStr "a man"; "text2" := VStr "a dog"; "label" := VFloat 1.5%float ]}.

Definition sample_sts_partitions : partitions :=
  {| train_data := Some [sample_sts_record; record_label_7_5];
     valid_data := Some [ {[ "text1" := VStr "a cat"; "text2" := VStr "a cat";
                             "label" := VFloat 5%float ]} ];
     test_data := Some [record_label_7_5] |}.

(** The record of [obj_near]. *)
Definition record_near : record :=
  {[ "text1" := VStr "a man runs"; "text2" := VStr "a man walks"; "label" := VFloat 0%float ]}.

(** A world that differs from [w] by its hub loader only. *)
Definition world_with_hub (w : world)
    (hub : list string -> result (gmap string (list row))) : world :=
  {| conv := conv w; load_dataset := hub; load_dataset_csv := load_dataset_csv w;
     read_lines := read_lines w; json_loads := json_loads w; read_tsv_gz := read_tsv_gz w;
     from_list := from_list w; shuffle := shuffle w; build_model := build_model w;
     from_pretrained := from_pretrained w; tokenize := tokenize w; fit := fit w;
     evaluate := evaluate w; similarity := similarity w |}.

(** A hub whose train split has a row without its second text after a
    good row. *)
Definition hub_missing_text : list string -> result (gmap string (list row)) :=
  fun _ => Ok {[ "train" := [pair_row "q1" "q2" 1;
                             {[ "text1" := VStr "q3"; "label" := VInt 0 ]};
                             pair_row "q5" "q6" 1] ]}.

(** Rows of AllNLI: a contradiction of the train split, a row of the dev
    split that has nothing but its split, a train row with an unknown label. *)
Definition nli_row_contra : row :=
  {[ "split" := VStr "train"; "label" := VStr "contradiction";
     "sentence1" := VStr " A man eats. "; "sentence2" := VStr "Nobody eats." ]}.

Definition nli_row_dev : row := {[ "split" := VStr "dev" ]}.

Definition nli_row_dash : row :=
  {[ "split" := VStr "train"; "label" := VStr "-";
     "sentence1" := VStr "A man eats."; "sentence2" := VStr "Nobody eats." ]}.

(** A hub whose every dataset is of the STS schema, as the local copies
    read by [load_sts] are. *)
Definition hub_sts : list string -> result (gmap string (list row)) :=
  fun _ => Ok {[ "test" := [sts_row "a cat" "a cat" 5%float] ]}.

(** The world of the task NLI-STS: the sample world over [hub_sts], its
    AllNLI file holding a contradiction. *)
Definition nli_world : world :=
  {| conv := plain_conv; load_dataset := hub_sts;
     load_dataset_csv := load_dataset_csv sample_world;
     read_lines := read_lines sample_world; json_loads := json_loads sample_world;
     read_tsv_gz := fun _ => Ok [nli_row_contra];
     from_list := fun _ => None; shuffle := fun l => reverse l;
     build_model := fun _ _ => None; from_pretrained := fun _ => None;
     tokenize := fun _ => None; fit := fun _ _ => None;
     evaluate := fun _ => Ok (0.5%float, 0.5%float);
     similarity := fun _ _ => Ok 1%float |}.

Definition nli_args (do_eval : Z) : args :=
  {| mode := "train"; task := "NLI-STS"; save_dir := Some "ckpts"; do_eval := do_eval;
     debug_sample_size := None; model_name := "NousResearch/Llama-2-7b-hf" |}.

(** A row of a C-STS file without labels, as a test file is. *)
Definition csts_row_unlabelled : row :=
  {[ "sentence1" := VStr "A dog runs."; "sentence2" := VStr "A cat sleeps.";
     "condition" := VStr "The animal" ]}.

(** * Properties *)

(** ** The embedding on small inputs *)

Example split_runs : split "  a b  c d " = ["a"; "b"; "c"; "d"].
Proof. reflexivity. Qed.

Example strip_both_ends : strip "  a b  " = "a b" /\ strip "   " = "".
Proof. split; reflexivity. Qed.

Example slice_to_values :
  slice_to 2 [1; 2; 3] = [1; 2] /\ slice_to 5 [1; 2; 3] = [1; 2; 3]
  /\ slice_to (-1) [1; 2; 3] = [1; 2] /\ slice_to (-7) [1; 2; 3] = [].
Proof. repeat split; reflexivity. Qed.

Example py_eq_zero_values :
  py_eq (VInt 0) (VInt 0) = true /\ py_eq (VFloat 0%float) (VInt 0) = true
  /\ py_eq (VBool false) (VInt 0) = true /\ py_eq (VStr "0") (VInt 0) = false
  /\ py_eq VNone (VInt 0) = false /\ py_eq (VFloat 0.5%float) (VInt 0) = false.
Proof. repeat split; vm_compute; reflexivity. Qed.

Example py_str_int : py_str plain_conv (VInt 0) = "0" /\ py_str plain_conv (VInt (-1)) = "-1".
Proof. split; vm_compute; reflexivity. Qed.

Example word_diff_far : word_diff obj_far = Ok 6%nat /\ word_diff obj_near = Ok 1%nat.
Proof. split; vm_compute; reflexivity. Qed.

Example task_names_loaded :
  star (Tuple ["SetFit/qqp"]) = ["SetFit/qqp"] /\ star (Name "ab") = ["a"; "b"].
Proof. split; reflexivity. Qed.

Example path_join_values :
  path_join (Some "ckpts") "test_prediction.json" = Ok "ckpts/test_prediction.json"
  /\ path_join (Some "ckpts/") "test_prediction.json" = Ok "ckpts/test_prediction.json"
  /\ path_join None "test_prediction.json" = Raise TypeError.
Proof. repeat split; reflexivity. Qed.

(** A run in the mode [test] on the sample world: the validation records
    are evaluated, the task being QQP. *)
Example main_test_qqp :
  main sample_world (sample_args "test" "QQP" None)
    = ([Evaluate [pair_record "v1" "v2" 0]], Ok tt).
Proof. vm_compute. reflexivity. Qed.

(** ** The result monad and [for_each] *)

Lemma bind_Ok {A B : Type} (m : result A) (k : A -> result B) (b : B) :
  (x <- m;; k x) = Ok b <-> exists a, m = Ok a /\ k a = Ok b.
Proof.
  destruct m as [a|e]; simpl; split.
  - intros H. exists a. split; [reflexivity | exact H].
  - intros (a' & Ha & Hk). inversion Ha. subst a'. exact Hk.
  - discriminate.
  - intros (a' & Ha & _). discriminate.
Qed.

Lemma for_each_Forall2 {A B : Type} (f : A -> result B) (xs : list A) (ys : list B) :
  for_each f xs = Ok ys <-> Forall2 (fun x y => f x = Ok y) xs ys.
Proof.
  revert ys. induction xs as [|x xs IH]; intros ys; simpl.
  - split.
    + intros H. inversion H. constructor.
    + intros H. inversion H. reflexivity.
  - rewrite bind_Ok. split.
    + intros (y & Hy & Hrest). apply bind_Ok in Hrest as (ys' & Hys & Heq).
      inversion Heq. subst ys. constructor; [exact Hy | apply IH, Hys].
    + intros H. inversion H as [|x' y xs' ys' Hy Hrest]. subst.
      exists y. split; [exact Hy|]. apply bind_Ok. exists ys'.
      split; [apply IH, Hrest | reflexivity].
Qed.

Lemma getitem_Ok (obj : row) (k : string) (v : value) :
  getitem obj k = Ok v <-> obj !! k = Some v.
Proof.
  unfold getitem. destruct (obj !! k) as [v'|]; split; intros H;
    inversion H; reflexivity.
Qed.

(** ** Hub rows: the label of a record *)

(** Case analysis on [x ∈ [a; b; ...]] for a list written out. *)
Ltac elem_cases H :=
  repeat (apply elem_of_cons in H as [H | H]);
  [ .. | apply elem_of_nil in H; destruct H ].

Lemma columns_pair_tasks (task : string) :
  task ∈ ["QNLI"; "RTE"] -> columns task = ("text1", "text2").
Proof.
  intros H. unfold columns. rewrite bool_decide_eq_true_2; [reflexivity|].
  elem_cases H; subst task; repeat constructor.
Qed.

Lemma remap_binary (c : text_conv) (task : string) (l : Z) :
  task ∈ ["QNLI"; "RTE"] -> l ∈ [0; 1] -> remap c task (VInt l) = Ok (1 - l).
Proof.
  intros Ht Hl. unfold remap, label_mapping.
  rewrite bool_decide_eq_true_2 by exact Ht.
  elem_cases Hl; subst l; reflexivity.
Qed.

(** C4. For the tasks QNLI and RTE the label of every record is the source
    label sent through the table that exchanges 0 and 1: source 1 gives 0,
    source 0 gives 1, the table maps the set of the two labels onto itself,
    and applying it twice gives the source label back. *)
Theorem qnli_rte_label_remap (c : text_conv) (task : string) (obj : row)
    (t1 t2 : value) (l : Z) :
  task ∈ ["QNLI"; "RTE"] ->
  l ∈ [0; 1] ->
  obj !! "text1" = Some t1 ->
  obj !! "text2" = Some t2 ->
  obj !! "label" = Some (VInt l) ->
  normalize c task obj
    = Ok {[ "text1" := t1; "text2" := t2; "label" := VInt (1 - l) ]}
  /\ remap c task (VInt 1) = Ok 0
  /\ remap c task (VInt 0) = Ok 1
  /\ 1 - l ∈ [0; 1]
  /\ (z <- remap c task (VInt l);; remap c task (VInt z)) = Ok l.
Proof.
  intros Ht Hl H1 H2 H3.
  assert (Hr : forall z, z ∈ [0; 1] -> remap c task (VInt z) = Ok (1 - z))
    by (intros z Hz; apply remap_binary; assumption).
  assert (Hl' : 1 - l ∈ [0; 1])
    by (pose proof Hl as Hl2; elem_cases Hl2; subst l; repeat constructor).
  split; [|split; [|split; [|split]]].
  - unfold normalize. rewrite (columns_pair_tasks task Ht).
    apply getitem_Ok in H1, H2, H3. rewrite H1, H2. simpl.
    rewrite bool_decide_eq_false_2.
    + rewrite H3. simpl. rewrite (Hr l Hl). reflexivity.
    + intros ->. elem_cases Ht; discriminate.
  - apply (Hr 1). repeat constructor.
  - apply (Hr 0). repeat constructor.
  - exact Hl'.
  - rewrite (Hr l Hl). simpl. rewrite (Hr (1 - l) Hl'). f_equal. lia.
Qed.

(** C4 on two sample rows: a QNLI row labelled 1 and an RTE row labelled 0. *)
Lemma qnli_rte_label_remap_witness :
  "QNLI" ∈ ["QNLI"; "RTE"] /\ 1 ∈ [0; 1]
  /\ normalize plain_conv "QNLI" (pair_row "q" "s" 1) = Ok (pair_record "q" "s" 0)
  /\ normalize plain_conv "RTE" (pair_row "q" "s" 0) = Ok (pair_record "q" "s" 1).
Proof.
  split; [repeat constructor|]. split; [repeat constructor|]. split.
  - apply (qnli_rte_label_remap plain_conv "QNLI" (pair_row "q" "s" 1)
             (VStr "q") (VStr "s") 1); try reflexivity; repeat constructor.
  - apply (qnli_rte_label_remap plain_conv "RTE" (pair_row "q" "s" 0)
             (VStr "q") (VStr "s") 0); try reflexivity; repeat constructor.
Defined.

Lemma normalize_stsb (c : text_conv) (obj : row) (r : record) :
  normalize c "STS-B" obj = Ok r ->
  exists t1 t2 s f,
    obj !! "sentence1" = Some t1 /\ obj !! "sentence2" = Some t2
    /\ obj !! "score" = Some s /\ py_float c s = Ok f
    /\ r = {[ "text1" := t1; "text2" := t2; "label" := VFloat f ]}.
Proof.
  unfold normalize, columns. simpl. intros H.
  apply bind_Ok in H as (t1 & H1 & H). apply bind_Ok in H as (t2 & H2 & H).
  apply bind_Ok in H as (l & Hl & H). apply bind_Ok in Hl as (s & Hs & Hl).
  apply bind_Ok in Hl as (f & Hf & Hl).
  apply getitem_Ok in H1, H2, Hs. inversion Hl. inversion H. subst.
  exists t1, t2, s, f. repeat split; assumption.
Qed.

(** C8, as stated, fails: a source row whose score is 7.5 gives a record
    whose label is 7.5, outside the benchmark range. *)
Lemma stsb_label_out_of_range :
  (forall c, normalize c "STS-B" row_score_7_5 = Ok record_label_7_5)
  /\ ~ label_in_range record_label_7_5.
Proof.
  split.
  - intros c. reflexivity.
  - intros (f & Hf & Hr). vm_compute in Hf. inversion Hf. subst f.
    vm_compute in Hr. discriminate.
Qed.

(** C8, amended. For the STS-B task the label of every record is the float
    conversion of the score of its source row, whatever that score is: the
    label is in the benchmark range exactly when the converted score is. *)
Theorem stsb_label_is_float_of_score (w : world) (tn : target) (split_name : string)
    (recs : list record) :
  load_data w "STS-B" tn split_name = Ok recs ->
  exists ds rows,
    load_dataset w (star tn) = Ok ds /\ ds !! split_name = Some rows
    /\ Forall2 (fun obj r => exists s f,
          obj !! "score" = Some s /\ py_float (conv w) s = Ok f
          /\ r !! "label" = Some (VFloat f)
          /\ (label_in_range r <-> in_range f = true)) rows recs.
Proof.
  unfold load_data. intros H.
  apply bind_Ok in H as (ds & Hds & H). apply bind_Ok in H as (rows & Hrows & H).
  exists ds, rows. split; [exact Hds|]. split.
  - unfold getsplit in Hrows. destruct (ds !! split_name); inversion Hrows; reflexivity.
  - apply for_each_Forall2 in H. eapply Forall2_impl; [exact H|].
    intros obj r Hn. apply normalize_stsb in Hn as (t1 & t2 & s & f & _ & _ & Hs & Hf & ->).
    exists s, f. split; [exact Hs|]. split; [exact Hf|].
    assert (Hl : ({[ "text1" := t1; "text2" := t2; "label" := VFloat f ]} : record)
                   !! "label" = Some (VFloat f)) by reflexivity.
    split; [exact Hl|]. unfold label_in_range. rewrite Hl. split.
    + intros (f' & Heq & Hr). inversion Heq. subst f'. exact Hr.
    + intros Hr. exists f. split; [reflexivity | exact Hr].
Qed.

(** C8 on the validation split of the sample STS dataset. *)
Lemma stsb_label_is_float_of_score_witness :
  load_data sample_world "STS-B" (Tuple ["mteb/stsbenchmark-sts"]) "validation"
    = Ok [ {[ "text1" := VStr "a cat"; "text2" := VStr "a cat"; "label" := VFloat 5%float ]} ]
  /\ exists ds rows,
       load_dataset sample_world ["mteb/stsbenchmark-sts"] = Ok ds
       /\ ds !! "validation" = Some rows
       /\ Forall2 (fun obj r => exists s f,
             obj !! "score" = Some s /\ py_float plain_conv s = Ok f
             /\ r !! "label" = Some (VFloat f)
             /\ (label_in_range r <-> in_range f = true)) rows
            [ {[ "text1" := VStr "a cat"; "text2" := VStr "a cat"; "label" := VFloat 5%float ]} ].
Proof.
  split; [vm_compute; reflexivity|].
  apply (stsb_label_is_float_of_score sample_world (Tuple ["mteb/stsbenchmark-sts"])
           "validation"). vm_compute. reflexivity.
Defined.

(** ** Trimming *)

Lemma lstrip_starts_clean (s : string) : starts_clean (lstrip s).
Proof.
  induction s as [|a s IH]; simpl; [exact I|].
  destruct (isspace a) eqn:Ha; [exact IH | simpl; exact Ha].
Qed.

Lemma lstrip_clean (s : string) : starts_clean s -> lstrip s = s.
Proof. destruct s as [|a s]; simpl; [reflexivity|]. intros ->. reflexivity. Qed.

Lemma rstrip_starts_clean (s : string) : starts_clean s -> starts_clean (rstrip s).
Proof.
  destruct s as [|a s]; simpl; [intros _; exact I|].
  intros Ha. rewrite Ha. simpl. exact Ha.
Qed.

Lemma rstrip_idem (s : string) : rstrip (rstrip s) = rstrip s.
Proof.
  induction s as [|a s IH]; simpl; [reflexivity|].
  destruct (isspace a && is_empty (rstrip s)) eqn:E; [reflexivity|].
  simpl. rewrite IH, E. reflexivity.
Qed.

Lemma strip_idem (s : string) : strip (strip s) = strip s.
Proof.
  unfold strip. rewrite (lstrip_clean (rstrip (lstrip s))).
  - apply rstrip_idem.
  - apply rstrip_starts_clean, lstrip_starts_clean.
Qed.

Lemma strip_value_Ok (v : value) (s : string) :
  strip_value v = Ok s <-> exists s0, v = VStr s0 /\ s = strip s0.
Proof.
  destruct v as [| b | z | f | s']; simpl; split; intros H;
    try discriminate; try (destruct H as (s0 & H & _); discriminate).
  - inversion H. eexists; split; reflexivity.
  - destruct H as (s0 & H & ->). inversion H. reflexivity.
Qed.

(** ** The C-STS loader *)

Lemma csts_step_data (st st' : Csts.state) (obj : row) :
  Csts.step st obj = Ok st' ->
  exists r, csts_record obj r /\ Csts.data st' = (Csts.data st ++ [r])%list.
Proof.
  unfold Csts.step. intros H.
  apply bind_Ok in H as (v1 & H1 & H). apply bind_Ok in H as (s1 & Hs1 & H).
  cbv zeta in H.
  apply bind_Ok in H as (v2 & H2 & H). apply bind_Ok in H as (s2 & Hs2 & H).
  apply bind_Ok in H as (vc & Hc & H). apply bind_Ok in H as (c & Hsc & H).
  apply bind_Ok in H as (l & Hl & H). apply bind_Ok in H as (l' & Hl' & H).
  apply bind_Ok in H as (c' & Hc' & H).
  apply getitem_Ok in H1, H2, Hc, Hl, Hl', Hc'.
  apply strip_value_Ok in Hs1 as (t1 & -> & ->).
  apply strip_value_Ok in Hs2 as (t2 & -> & ->).
  apply strip_value_Ok in Hsc as (tc & -> & ->).
  rewrite lookup_insert_ne in H2 by discriminate.
  rewrite !lookup_insert_ne in Hc by discriminate.
  rewrite !lookup_insert_ne in Hl, Hl' by discriminate.
  rewrite lookup_insert_eq in Hc'.
  inversion Hc'. subst c'. rewrite Hl in Hl'. inversion Hl'. subst l'.
  inversion H. simpl. eexists. split; [|reflexivity].
  exists t1, t2, tc, l. repeat split; assumption.
Qed.

Lemma csts_step_total (st : Csts.state) (obj : row) (r : record) :
  csts_record obj r ->
  exists st', Csts.step st obj = Ok st' /\ Csts.data st' = (Csts.data st ++ [r])%list.
Proof.
  intros (s1 & s2 & c & l & H1 & H2 & Hc & Hl & ->).
  unfold Csts.step. unfold getitem at 1. rewrite H1. simpl.
  unfold getitem at 1. rewrite lookup_insert_ne by discriminate. rewrite H2. simpl.
  unfold getitem at 1. rewrite !lookup_insert_ne by discriminate. rewrite Hc. simpl.
  unfold getitem at 1. rewrite !lookup_insert_ne by discriminate. rewrite Hl. simpl.
  unfold getitem at 1. rewrite !lookup_insert_ne by discriminate. rewrite Hl. simpl.
  unfold getitem at 1. rewrite lookup_insert_eq. simpl.
  eexists. split; reflexivity.
Qed.

Lemma csts_loop_sound (ds : list row) (st st' : Csts.state) :
  Csts.loop st ds = Ok st' ->
  exists recs, Forall2 csts_record ds recs
               /\ Csts.data st' = (Csts.data st ++ recs)%list.
Proof.
  revert st. induction ds as [|obj ds IH]; intros st H; simpl in *.
  - inversion H. subst st'. exists []. split; [constructor|].
    rewrite app_nil_r. reflexivity.
  - apply bind_Ok in H as (st1 & Hstep & Hloop).
    apply csts_step_data in Hstep as (r & Hr & Hdata).
    apply IH in Hloop as (recs & Hrecs & Hd).
    exists (r :: recs). split; [constructor; assumption|].
    rewrite Hd, Hdata, <- app_assoc. reflexivity.
Qed.

Lemma csts_loop_total (ds : list row) (recs : list record) :
  Forall2 csts_record ds recs ->
  forall st, exists st',
    Csts.loop st ds = Ok st' /\ Csts.data st' = (Csts.data st ++ recs)%list.
Proof.
  induction 1 as [|obj r ds recs Hr _ IH]; intros st; simpl.
  - exists st. rewrite app_nil_r. split; reflexivity.
  - destruct (csts_step_total st obj r Hr) as (st1 & Hstep & Hdata).
    destruct (IH st1) as (st' & Hloop & Hd).
    exists st'. rewrite Hstep. simpl. split; [exact Hloop|].
    rewrite Hd, Hdata, <- app_assoc. reflexivity.
Qed.

Lemma csts_load_data_Forall2 (ds : list row) (recs : list record) :
  Csts.load_data ds = Ok recs <-> Forall2 csts_record ds recs.
Proof.
  unfold Csts.load_data. split.
  - intros H. apply bind_Ok in H as (st & Hloop & Heq).
    apply csts_loop_sound in Hloop as (recs' & Hrecs & Hd).
    inversion Heq. subst recs. rewrite Hd. exact Hrecs.
  - intros H. destruct (csts_loop_total ds recs H Csts.init) as (st & Hloop & Hd).
    rewrite Hloop. simpl. rewrite Hd. reflexivity.
Qed.

(** C1, as stated, fails: two equal rows give two equal records, so two
    records of the output share their sentence pair and condition. *)
Lemma csts_duplicate_rows_kept :
  Csts.load_data [csts_row_dup; csts_row_dup] = Ok [csts_record_dup; csts_record_dup]
  /\ ~ NoDup (triple <$> [csts_record_dup; csts_record_dup]).
Proof.
  split.
  - vm_compute. reflexivity.
  - intros H. apply NoDup_cons in H as [H _]. apply H. constructor.
Qed.

(** C1, amended. The C-STS loader returns exactly one record per input row,
    in the order of the rows: the record of a row holds its trimmed
    sentences, its trimmed condition and its label. It returns whenever every
    row has the three texts and a label. The sets keyed by sentence pair do
    not filter anything: equal rows give equal records, one each. *)
Theorem csts_one_record_per_row (ds : list row) (recs : list record) :
  (Csts.load_data ds = Ok recs <-> Forall2 csts_record ds recs)
  /\ (Csts.load_data ds = Ok recs -> length recs = length ds).
Proof.
  split; [apply csts_load_data_Forall2|].
  intros H. apply csts_load_data_Forall2 in H. symmetry. eapply Forall2_length, H.
Qed.

(** C1 on the repeated row: two rows, two records. *)
Lemma csts_one_record_per_row_witness :
  Forall2 csts_record [csts_row_dup; csts_row_dup] [csts_record_dup; csts_record_dup]
  /\ length [csts_record_dup; csts_record_dup] = length [csts_row_dup; csts_row_dup].
Proof.
  split.
  - apply (csts_one_record_per_row [csts_row_dup; csts_row_dup]
             [csts_record_dup; csts_record_dup]).
    vm_compute. reflexivity.
  - apply (csts_one_record_per_row [csts_row_dup; csts_row_dup]
             [csts_record_dup; csts_record_dup]).
    vm_compute. reflexivity.
Defined.

(** ** The text fields of the records *)

Lemma for_each_Forall {A B : Type} (f : A -> result B) (P : B -> Prop)
    (xs : list A) (ys : list B) :
  (forall x y, f x = Ok y -> P y) -> for_each f xs = Ok ys -> Forall P ys.
Proof.
  intros HP H. apply for_each_Forall2 in H.
  induction H as [|x y xs ys Hxy _ IH]; constructor; eauto.
Qed.

Lemma omap_id_Forall {A : Type} (P : A -> Prop) (os : list (option A)) :
  Forall (fun o => forall a, o = Some a -> P a) os -> Forall P (omap id os).
Proof.
  induction 1 as [|o os Ho _ IH]; simpl; [constructor|].
  destruct o as [a|]; simpl; [constructor; auto | exact IH].
Qed.

Lemma normalize_copies (c : text_conv) (task : string) (obj : row) (r : record) :
  normalize c task obj = Ok r ->
  copies (columns task).1 (columns task).2 obj r.
Proof.
  unfold normalize. destruct (columns task) as [col1 col2]. simpl. intros H.
  apply bind_Ok in H as (t1 & H1 & H). apply bind_Ok in H as (t2 & H2 & H).
  apply bind_Ok in H as (l & _ & H). apply getitem_Ok in H1, H2.
  inversion H. subst r. unfold copies, has_texts. rewrite H1, H2.
  repeat split; eexists; reflexivity.
Qed.

Lemma sts_record_copies (c : text_conv) (obj : row) (r : record) :
  sts_record c obj = Ok r -> copies "sentence1" "sentence2" obj r.
Proof.
  unfold sts_record. intros H.
  apply bind_Ok in H as (t1 & H1 & H). apply bind_Ok in H as (t2 & H2 & H).
  apply bind_Ok in H as (s & _ & H). apply bind_Ok in H as (f & _ & H).
  apply getitem_Ok in H1, H2.
  inversion H. subst r. unfold copies, has_texts. rewrite H1, H2.
  repeat split; eexists; reflexivity.
Qed.

Lemma copies_has_texts (c1 c2 : string) (obj : row) (r : record) :
  copies c1 c2 obj r -> has_texts r.
Proof. intros (_ & _ & H). exact H. Qed.

Lemma nli_row_trimmed (b : bool) (obj : row) (r : record) :
  Nli.nli_row b obj = Ok (Some r) -> texts_trimmed r.
Proof.
  unfold Nli.nli_row. intros H.
  apply bind_Ok in H as (sp & _ & H).
  destruct (py_eq sp (VStr "train")); [|discriminate].
  apply bind_Ok in H as (l & _ & H).
  destruct (negb (py_eq l (VStr "neutral"))); [|discriminate].
  apply bind_Ok in H as (skipped & _ & H).
  destruct skipped; [discriminate|].
  apply bind_Ok in H as (v1 & _ & H). apply bind_Ok in H as (s1 & Hs1 & H).
  apply bind_Ok in H as (v2 & _ & H). apply bind_Ok in H as (s2 & Hs2 & H).
  apply bind_Ok in H as (l2 & _ & H). apply bind_Ok in H as (z & _ & H).
  apply strip_value_Ok in Hs1 as (t1 & _ & ->).
  apply strip_value_Ok in Hs2 as (t2 & _ & ->).
  inversion H. subst r. split; eexists; (split; [reflexivity | apply strip_idem]).
Qed.

Lemma csts_record_trimmed (obj : row) (r : record) :
  csts_record obj r -> texts_trimmed r.
Proof.
  intros (s1 & s2 & c & l & _ & _ & _ & _ & ->).
  split; eexists; (split; [reflexivity | apply strip_idem]).
Qed.

Lemma load_line_has_texts (w : world) (b : bool) (line : string) (o : option record) :
  load_line w b line = Ok o -> forall r, o = Some r -> has_texts r.
Proof.
  unfold load_line. intros H r ->.
  destruct (is_empty (strip line)); [discriminate|].
  apply bind_Ok in H as (obj & _ & H). apply bind_Ok in H as (skipped & _ & H).
  destruct skipped; [discriminate|].
  apply bind_Ok in H as (r' & Hr & H). inversion H. subst r'.
  eapply copies_has_texts, sts_record_copies, Hr.
Qed.

Lemma load_has_texts (w : world) (fpaths : string + list string) (b : bool)
    (recs : list record) :
  load w fpaths b = Ok recs -> Forall has_texts recs.
Proof.
  unfold load. intros H. apply bind_Ok in H as (ds & Hds & H).
  inversion H. subst recs. apply Forall_concat.
  eapply for_each_Forall; [|exact Hds].
  intros fpath d Hd. unfold load_file in Hd.
  apply bind_Ok in Hd as (lines & _ & Hd). apply bind_Ok in Hd as (rs & Hrs & Hd).
  inversion Hd. subst d. apply omap_id_Forall.
  eapply for_each_Forall; [|exact Hrs].
  intros line o. apply load_line_has_texts.
Qed.

Lemma sts_rows_have_texts (c : text_conv) (rows : list row) (recs : list record) :
  for_each (sts_record c) rows = Ok recs -> Forall has_texts recs.
Proof.
  apply for_each_Forall. intros obj r Hr.
  eapply copies_has_texts, sts_record_copies, Hr.
Qed.

Lemma load_test_has_texts (w : world) (path : string) (recs : list record) :
  Nli.load_test w path = Ok recs -> Forall has_texts recs.
Proof.
  unfold Nli.load_test. intros H.
  apply bind_Ok in H as (ds & _ & H). apply bind_Ok in H as (rows & _ & H).
  eapply sts_rows_have_texts, H.
Qed.

(** C5, as stated, fails: a training row of AllNLI whose first sentence is
    two spaces gives a record whose [text1] is the empty string. *)
Lemma nli_blank_sentence_kept :
  Nli.load_rows true [nli_row_blank] = Ok [nli_record_blank]
  /\ ~ texts_nonblank nli_record_blank.
Proof.
  split.
  - vm_compute. reflexivity.
  - intros H. destruct H as [(s & Hs & Hne) _].
    vm_compute in Hs. inversion Hs. subst s. apply Hne. reflexivity.
Qed.

(** C5, amended. Every record of every loader has the fields [text1] and
    [text2]. The hub and JSONL loaders copy the two source cells as they
    are; the records of the gzip TSV and CSV loaders hold strings that are
    their own trimming. No loader asks for more: a blank source sentence
    stays blank or becomes the empty string. *)
Theorem text_fields_present (w : world) :
  (forall task obj r, normalize (conv w) task obj = Ok r ->
     copies (columns task).1 (columns task).2 obj r)
  /\ (forall obj r, sts_record (conv w) obj = Ok r ->
     copies "sentence1" "sentence2" obj r)
  /\ (forall task tn split_name recs,
     load_data w task tn split_name = Ok recs -> Forall has_texts recs)
  /\ (forall task split_name recs,
     load_stsb_llm w task split_name = Ok recs -> Forall has_texts recs)
  /\ (forall b nli sts,
     load_nli_data w b = Ok (nli, sts) ->
     Forall texts_trimmed nli /\ Forall has_texts nli /\ Forall has_texts sts)
  /\ (forall train valid test,
     load_csts_data w = Ok (train, valid, test) ->
     Forall texts_trimmed train /\ Forall texts_trimmed valid
     /\ Forall texts_trimmed test).
Proof.
  assert (Htrim : forall r, texts_trimmed r -> has_texts r).
  { intros r [(s1 & H1 & _) (s2 & H2 & _)]. split; eexists; eassumption. }
  assert (Hcsts : forall ds recs, Csts.load_data ds = Ok recs -> Forall texts_trimmed recs).
  { intros ds recs H. apply csts_load_data_Forall2 in H.
    induction H as [|obj r ds recs Hr _ IH]; constructor;
      [eapply csts_record_trimmed, Hr | exact IH]. }
  split; [intros task obj r; apply normalize_copies|].
  split; [intros obj r; apply sts_record_copies|].
  split; [|split; [|split]].
  - intros task tn split_name recs H. unfold load_data in H.
    apply bind_Ok in H as (ds & _ & H). apply bind_Ok in H as (rows & _ & H).
    eapply for_each_Forall; [|exact H].
    intros obj r Hr. eapply copies_has_texts, normalize_copies, Hr.
  - intros task split_name recs H. unfold load_stsb_llm in H.
    repeat case_bool_decide; try discriminate;
      try (eapply load_has_texts; exact H).
    apply bind_Ok in H as (ds & _ & H). apply bind_Ok in H as (rows & _ & H).
    eapply sts_rows_have_texts, H.
  - intros b nli sts H. unfold load_nli_data in H.
    apply bind_Ok in H as (nli' & Hnli & H). apply bind_Ok in H as (sts' & Hsts & H).
    inversion H. subst nli' sts'.
    assert (Hn : Forall texts_trimmed nli).
    { unfold Nli.load_all_nli in Hnli. apply bind_Ok in Hnli as (rows & _ & Hnli).
      unfold Nli.load_rows in Hnli. apply bind_Ok in Hnli as (rs & Hrs & Hnli).
      inversion Hnli. apply omap_id_Forall.
      eapply for_each_Forall; [|exact Hrs].
      intros obj o Ho r ->. eapply nli_row_trimmed, Ho. }
    split; [exact Hn|]. split; [eapply Forall_impl; [exact Hn | exact Htrim]|].
    unfold Nli.load_sts in Hsts.
    apply bind_Ok in Hsts as (years & Hy & Hsts). apply bind_Ok in Hsts as (bm & Hb & Hsts).
    apply bind_Ok in Hsts as (sick & Hr & Hsts). inversion Hsts.
    rewrite !Forall_app. split; [|split].
    + apply Forall_concat. eapply for_each_Forall; [|exact Hy].
      intros i d. apply load_test_has_texts.
    + eapply load_test_has_texts, Hb.
    + eapply load_test_has_texts, Hr.
  - intros train valid test H. unfold load_csts_data in H.
    apply bind_Ok in H as (ds & _ & H).
    apply bind_Ok in H as (tr & _ & H). apply bind_Ok in H as (train' & Htr & H).
    apply bind_Ok in H as (va & _ & H). apply bind_Ok in H as (valid' & Hva & H).
    apply bind_Ok in H as (te & _ & H). apply bind_Ok in H as (test' & Hte & H).
    inversion H. subst train' valid' test'.
    repeat split; eapply Hcsts; eassumption.
Qed.

(** C5 on the C-STS files and on a pair row of the sample world. *)
Lemma text_fields_present_witness :
  load_csts_data sample_world = Ok ([csts_record_dup; csts_record_dup], [], [])
  /\ Forall texts_trimmed [csts_record_dup; csts_record_dup]
  /\ copies "text1" "text2" (pair_row "q" "s" 1) (pair_record "q" "s" 0).
Proof.
  pose proof (text_fields_present sample_world) as (Hn & _ & _ & _ & _ & Hc).
  split; [vm_compute; reflexivity|]. split.
  - apply (Hc [csts_record_dup; csts_record_dup] [] []). vm_compute. reflexivity.
  - apply (Hn "QNLI" (pair_row "q" "s" 1) (pair_record "q" "s" 0)).
    vm_compute. reflexivity.
Defined.

(** ** The distilled STS-B files: the skip-negative guard *)

Lemma for_each_elem {A B : Type} (f : A -> result B) (xs : list A) (ys : list B) (x : A) :
  for_each f xs = Ok ys -> x ∈ xs -> exists y, f x = Ok y /\ y ∈ ys.
Proof.
  intros H. apply for_each_Forall2 in H.
  induction H as [|x' y xs ys Hxy _ IH]; intros Hx.
  - apply elem_of_nil in Hx. destruct Hx.
  - apply elem_of_cons in Hx as [-> | Hx].
    + exists y. split; [exact Hxy | constructor].
    + destruct (IH Hx) as (y' & Hy' & Hin). exists y'. split; [exact Hy'|].
      constructor. exact Hin.
Qed.

Lemma elem_of_concat {A : Type} (x : A) (ls : list (list A)) (l : list A) :
  l ∈ ls -> x ∈ l -> x ∈ concat ls.
Proof.
  intros Hl Hx. induction ls as [|l' ls IH]; simpl.
  - apply elem_of_nil in Hl. destruct Hl.
  - apply elem_of_app. apply elem_of_cons in Hl as [-> | Hl]; [left | right]; auto.
Qed.

Lemma skip_true (obj : row) :
  skip true obj = Ok true <->
  exists s n, obj !! "score" = Some s /\ py_eq s (VInt 0) = true
              /\ word_diff obj = Ok n /\ (n < 5)%nat.
Proof.
  unfold skip. split.
  - intros H. apply bind_Ok in H as (s & Hs & H). apply getitem_Ok in Hs.
    destruct (py_eq s (VInt 0)) eqn:Hz; [|discriminate].
    apply bind_Ok in H as (n & Hn & H). injection H as Hlt.
    apply bool_decide_eq_true_1 in Hlt.
    exists s, n. split; [exact Hs|]. split; [exact Hz|]. split; [exact Hn | exact Hlt].
  - intros (s & n & Hs & Hz & Hn & Hlt). apply getitem_Ok in Hs.
    rewrite Hs. simpl. rewrite Hz, Hn. simpl.
    rewrite bool_decide_eq_true_2 by exact Hlt. reflexivity.
Qed.

Lemma load_line_dropped (w : world) (b : bool) (line : string) (obj : row) :
  is_empty (strip line) = false ->
  json_loads w (strip line) = Ok obj ->
  load_line w b line = Ok None <-> skip b obj = Ok true.
Proof.
  intros Hne Hobj. unfold load_line. rewrite Hne, Hobj. simpl. split.
  - intros H. apply bind_Ok in H as (skipped & Hs & H).
    destruct skipped; [exact Hs|].
    apply bind_Ok in H as (r & _ & H). discriminate.
  - intros ->. reflexivity.
Qed.

Lemma load_line_kept (w : world) (line : string) (obj : row) (n : nat) (o : option record) :
  is_empty (strip line) = false ->
  json_loads w (strip line) = Ok obj ->
  word_diff obj = Ok n -> (5 <= n)%nat ->
  load_line w true line = Ok o ->
  exists r, sts_record (conv w) obj = Ok r /\ o = Some r.
Proof.
  intros Hne Hobj Hn Hge H. unfold load_line in H. rewrite Hne, Hobj in H. simpl in H.
  apply bind_Ok in H as (skipped & Hs & H). destruct skipped.
  - apply skip_true in Hs as (s & n' & _ & _ & Hn' & Hlt).
    rewrite Hn in Hn'. inversion Hn'. lia.
  - apply bind_Ok in H as (r & Hr & H). inversion H. exists r. split; reflexivity || exact Hr.
Qed.

(** C3. With [skip_neg] enabled, a line of a distilled file is dropped
    exactly when the score of its object equals 0 and fewer than 5 words of
    the first sentence are missing from the second. So a line whose word-set
    difference has 5 elements or more is never dropped, and whenever the
    files load its record is in the data. *)
Theorem skip_neg_drops_only_zero_score_small_diff (w : world) (line : string) (obj : row) :
  is_empty (strip line) = false ->
  json_loads w (strip line) = Ok obj ->
  (load_line w true line = Ok None <->
     exists s n, obj !! "score" = Some s /\ py_eq s (VInt 0) = true
                 /\ word_diff obj = Ok n /\ (n < 5)%nat)
  /\ (forall n, word_diff obj = Ok n -> (5 <= n)%nat ->
        load_line w true line <> Ok None
        /\ forall fpaths fpath lines data,
             fpath ∈ as_list fpaths -> read_lines w fpath = Ok lines -> line ∈ lines ->
             load w fpaths true = Ok data ->
             exists r, sts_record (conv w) obj = Ok r /\ r ∈ data).
Proof.
  intros Hne Hobj. split.
  - rewrite (load_line_dropped w true line obj Hne Hobj). apply skip_true.
  - intros n Hn Hge. split.
    + intros H. destruct (load_line_kept w line obj n None Hne Hobj Hn Hge H)
        as (r & _ & Hr). discriminate.
    + intros fpaths fpath lines data Hpath Hlines Hline H.
      unfold load in H. apply bind_Ok in H as (ds & Hds & H). inversion H. subst data.
      destruct (for_each_elem _ _ _ fpath Hds Hpath) as (d & Hd & Hin).
      unfold load_file in Hd. rewrite Hlines in Hd. simpl in Hd.
      apply bind_Ok in Hd as (rs & Hrs & Hd). inversion Hd. subst d.
      destruct (for_each_elem _ _ _ line Hrs Hline) as (o & Ho & Hino).
      destruct (load_line_kept w line obj n o Hne Hobj Hn Hge Ho) as (r & Hr & ->).
      exists r. split; [exact Hr|].
      apply (elem_of_concat r ds (omap id rs) Hin).
      apply list_elem_of_omap. exists (Some r). split; [exact Hino | reflexivity].
Qed.

(** C3 on the two lines of the sample file: the line with six missing words is
    kept, the line with one is dropped. *)
Lemma skip_neg_drops_only_zero_score_small_diff_witness :
  is_empty (strip "far ") = false
  /\ json_loads sample_world (strip "far ") = Ok obj_far
  /\ word_diff obj_far = Ok 6%nat
  /\ load_line sample_world true "far " <> Ok None
  /\ load_line sample_world true "far " = Ok (Some record_far)
  /\ load_line sample_world true "near" = Ok None.
Proof.
  split; [reflexivity|]. split; [reflexivity|]. split; [vm_compute; reflexivity|].
  split; [|split].
  - apply (skip_neg_drops_only_zero_score_small_diff sample_world "far " obj_far
             eq_refl eq_refl) with (n := 6%nat); [vm_compute; reflexivity | lia].
  - vm_compute. reflexivity.
  - vm_compute. reflexivity.
Defined.

(** ** AllNLI: the [exclude_neutral] flag *)

Lemma nli_row_flag (b : bool) (r : row) : Nli.nli_row b r = Nli.nli_row true r.
Proof.
  destruct b; [reflexivity|]. unfold Nli.nli_row.
  destruct (getitem r "split") as [sp|e]; cbn [bind]; [|reflexivity].
  destruct (py_eq sp (VStr "train")); [|reflexivity].
  destruct (getitem r "label") as [l|e] eqn:Hl; cbn [bind]; [|reflexivity].
  destruct (py_eq l (VStr "neutral")); reflexivity.
Qed.

Lemma for_each_ext {A B : Type} (f g : A -> result B) (xs : list A) :
  (forall x, f x = g x) -> for_each f xs = for_each g xs.
Proof.
  intros H. induction xs as [|x xs IH]; simpl; [reflexivity|].
  rewrite H, IH. reflexivity.
Qed.

(** C7: what the code does. A training row labelled neutral is skipped
    although [exclude_neutral] is false, where the claim has it kept as
    [nli_record_neutral]; the flag changes nothing on any input, the test on
    the label that precedes it having sent the neutral rows away. *)
Theorem exclude_neutral_flag_has_no_effect :
  Nli.load_rows false [nli_row_neutral] = Ok []
  /\ Nli.load_rows false [nli_row_neutral] <> Ok [nli_record_neutral]
  /\ (forall b rows, Nli.load_rows b rows = Nli.load_rows true rows)
  /\ (forall w b, Nli.load_all_nli w b = Nli.load_all_nli w true).
Proof.
  assert (H : forall b rows, Nli.load_rows b rows = Nli.load_rows true rows).
  { intros b rows. unfold Nli.load_rows.
    rewrite (for_each_ext (Nli.nli_row b) (Nli.nli_row true)); [reflexivity|].
    apply nli_row_flag. }
  split; [vm_compute; reflexivity|].
  split; [vm_compute; discriminate|].
  split; [exact H|].
  intros w b. unfold Nli.load_all_nli.
  destruct (read_tsv_gz w "./data/AllNLI.tsv.gz"); simpl; [apply H | reflexivity].
Qed.

(** ** Partitions and their assembly *)

Lemma add_part_Ok (w : world) (k : string) (d : list record)
    (dataset ds : gmap string (list record)) :
  add_part w k d dataset = Ok ds -> ds = <[k := d]> dataset.
Proof.
  unfold add_part. intros H. apply bind_Ok in H as (u & _ & H).
  inversion H. reflexivity.
Qed.

(** What a successful assembly holds under its three keys. *)
Lemma assemble_Ok (w : world) (a : args) (p : partitions)
    (ds : gmap string (list record)) :
  assemble w a p = Ok ds ->
  ds !! "train" = sample a <$> train_data p
  /\ ds !! "validation" = valid_data p
  /\ ds !! "test" = test_data p.
Proof.
  unfold assemble. intros H.
  apply bind_Ok in H as (d1 & H1 & H). apply bind_Ok in H as (d2 & H2 & H).
  assert (E1 : d1 !! "train" = sample a <$> train_data p
               /\ d1 !! "validation" = None /\ d1 !! "test" = None).
  { destruct (train_data p) as [train|].
    - apply add_part_Ok in H1. subst d1. repeat split.
    - inversion H1. repeat split. }
  destruct E1 as (E1t & E1v & E1s).
  assert (E2 : d2 !! "train" = sample a <$> train_data p
               /\ d2 !! "validation" = valid_data p /\ d2 !! "test" = None).
  { destruct (valid_data p) as [valid|].
    - apply add_part_Ok in H2. subst d2.
      split; [|split].
      + rewrite lookup_insert_ne by discriminate. exact E1t.
      + apply lookup_insert_eq.
      + rewrite lookup_insert_ne by discriminate. exact E1s.
    - inversion H2. subst d2. repeat split; assumption. }
  destruct E2 as (E2t & E2v & E2s).
  destruct (test_data p) as [test|].
  - apply add_part_Ok in H. subst ds. split; [|split].
    + rewrite lookup_insert_ne by discriminate. exact E2t.
    + rewrite lookup_insert_ne by discriminate. exact E2v.
    + apply lookup_insert_eq.
  - inversion H. subst ds. repeat split; assumption.
Qed.

(** C9. For the tasks QQP, QNLI and RTE, once the three splits are loaded,
    the test partition is the validation partition, record for record: the
    split loaded as test appears nowhere in the partitions, and the assembled
    dataset holds the validation records under both keys. *)
Theorem test_partition_is_validation (w : world) (a : args) (tn : target)
    (tr va te : list record) :
  task a ∈ ["QQP"; "QNLI"; "RTE"] ->
  load_data w (task a) tn "train" = Ok tr ->
  load_data w (task a) tn "validation" = Ok va ->
  load_data w (task a) tn "test" = Ok te ->
  let p := {| train_data := Some tr; valid_data := Some va; test_data := Some va |} in
  load_partitions w a tn = Ok p
  /\ forall ds, assemble w a p = Ok ds ->
       ds !! "validation" = Some va /\ ds !! "test" = Some va.
Proof.
  intros Ht Htr Hva Hte p. split.
  - unfold load_partitions. rewrite bool_decide_eq_false_2.
    + rewrite Htr, Hva, Hte. simpl. rewrite bool_decide_eq_true_2 by exact Ht.
      reflexivity.
    + intros Heq. rewrite Heq in Ht. elem_cases Ht; discriminate.
  - intros ds H. apply assemble_Ok in H as (_ & Hv & Hs). split; assumption.
Qed.

(** C9 on the sample world, task QQP. *)
Lemma test_partition_is_validation_witness :
  "QQP" ∈ ["QQP"; "QNLI"; "RTE"]
  /\ load_data sample_world "QQP" (Tuple ["SetFit/qqp"]) "test" = Ok [pair_record "t1" "t2" (-1)]
  /\ load_partitions sample_world (sample_args "test" "QQP" None) (Tuple ["SetFit/qqp"])
     = Ok sample_partitions.
Proof.
  split; [repeat constructor|]. split; [vm_compute; reflexivity|].
  apply (test_partition_is_validation sample_world (sample_args "test" "QQP" None)
           (Tuple ["SetFit/qqp"]) _ _ [pair_record "t1" "t2" (-1)]).
  - repeat constructor.
  - vm_compute. reflexivity.
  - vm_compute. reflexivity.
  - vm_compute. reflexivity.
Defined.

(** C10, as stated, fails: with [debug_sample_size] set to -1 the train
    partition of three records keeps its first two, which are not its first
    -1 records under any count; they are not the whole list either. *)
Lemma negative_sample_size_drops_tail :
  assemble sample_world (sample_args "train" "QQP" (Some (-1))) sample_partitions
    = Ok {[ "train" := [pair_record "q1" "q2" 1; pair_record "q3" "q4" 0];
            "validation" := [pair_record "v1" "v2" 0];
            "test" := [pair_record "v1" "v2" 0] ]}
  /\ ~ first_records (-1)
         [pair_record "q1" "q2" 1; pair_record "q3" "q4" 0; pair_record "q5" "q6" 1]
         [pair_record "q1" "q2" 1; pair_record "q3" "q4" 0]
  /\ train_data sample_partitions
       <> Some [pair_record "q1" "q2" 1; pair_record "q3" "q4" 0].
Proof.
  split; [vm_compute; reflexivity|]. split.
  - unfold first_records. simpl. discriminate.
  - simpl. intros H. injection H as H. discriminate.
Qed.

(** C10, amended. When [debug_sample_size] is set to [n], only the train
    partition changes: for [n] at least 0 it becomes its first [n] records,
    the whole list when that has no more than [n]; for a negative [n] it
    loses its last [-n] records. The validation and test partitions are
    handed on as they were loaded. *)
Theorem debug_sample_truncates_train (w : world) (a : args) (p : partitions)
    (ds : gmap string (list record)) (train : list record) (n : Z) :
  train_data p = Some train ->
  debug_sample_size a = Some n ->
  assemble w a p = Ok ds ->
  (0 <= n -> ds !! "train" = Some (take (Z.to_nat n) train))
  /\ (Z.of_nat (length train) <= n -> ds !! "train" = Some train)
  /\ (n < 0 -> ds !! "train" = Some (take (length train - Z.to_nat (- n)) train))
  /\ ds !! "validation" = valid_data p
  /\ ds !! "test" = test_data p.
Proof.
  intros Htr Hn Hds. apply assemble_Ok in Hds as (Ht & Hv & Hs).
  rewrite Htr in Ht. unfold sample in Ht. rewrite Hn in Ht. simpl in Ht.
  rewrite Ht. unfold slice_to.
  split; [|split; [|split; [|split]]].
  - intros H. apply Z.leb_le in H. rewrite H. reflexivity.
  - intros H. assert (H0 : (0 <=? n)%Z = true) by (apply Z.leb_le; lia).
    rewrite H0. rewrite firstn_all2 by lia. reflexivity.
  - intros H. assert (H0 : (0 <=? n)%Z = false) by (apply Z.leb_gt; lia).
    rewrite H0. do 2 f_equal. lia.
  - exact Hv.
  - exact Hs.
Qed.

(** C10 on the sample partitions with [debug_sample_size] set to 2. *)
Lemma debug_sample_truncates_train_witness :
  let ds : gmap string (list record) :=
    {[ "train" := [pair_record "q1" "q2" 1; pair_record "q3" "q4" 0];
       "validation" := [pair_record "v1" "v2" 0];
       "test" := [pair_record "v1" "v2" 0] ]} in
  assemble sample_world (sample_args "train" "QQP" (Some 2)) sample_partitions = Ok ds
  /\ ds !! "train"
     = Some (take (Z.to_nat 2)
               [pair_record "q1" "q2" 1; pair_record "q3" "q4" 0; pair_record "q5" "q6" 1])
  /\ ds !! "validation" = valid_data sample_partitions
  /\ ds !! "test" = test_data sample_partitions.
Proof.
  intros ds.
  assert (Hds : assemble sample_world (sample_args "train" "QQP" (Some 2)) sample_partitions
                = Ok ds) by (vm_compute; reflexivity).
  destruct (debug_sample_truncates_train sample_world (sample_args "train" "QQP" (Some 2))
              sample_partitions ds _ 2 eq_refl eq_refl Hds) as (Ht & _ & _ & Hv & Hs).
  split; [exact Hds|]. split; [apply Ht; lia|]. split; [exact Hv | exact Hs].
Defined.

(** ** Task resolution and mode dispatch *)

Lemma TASK_MAPPING_None (t : string) :
  t ∉ ["NLI-STS"; "STS-B"; "MRPC"; "QQP"; "QNLI"; "RTE"] <-> TASK_MAPPING !! t = None.
Proof.
  unfold TASK_MAPPING. split.
  - intros H. rewrite !not_elem_of_cons in H.
    destruct H as (H1 & H2 & H3 & H4 & H5 & H6 & _).
    rewrite !lookup_insert_ne by congruence. apply lookup_singleton_ne. congruence.
  - intros H Hin. elem_cases Hin; subst t; vm_compute in H; discriminate.
Qed.

Lemma dispatch_unsupported (w : world) (a : args) (p : partitions)
    (ds : gmap string (list record)) :
  mode a ∉ ["train"; "test"; "test_csts"] ->
  dispatch w a p ds = ([], Raise (ValueError ("not support " ++ mode a))).
Proof.
  intros H. rewrite !not_elem_of_cons in H. destruct H as (H1 & H2 & H3 & _).
  unfold dispatch. rewrite !bool_decide_eq_false_2 by assumption. reflexivity.
Qed.

(** The run up to the dispatch: no event, and the dispatch is reached
    exactly when the task resolves, the data load and the dataset assembles. *)
Lemma main_prefix (w : world) (a : args) :
  (exists tn p ds,
      TASK_MAPPING !! task a = Some tn /\ load_partitions w a tn = Ok p
      /\ assemble w a p = Ok ds /\ main w a = dispatch w a p ds)
  \/ ((exists e, main w a = ([], Raise e))
      /\ forall tn p ds,
           TASK_MAPPING !! task a = Some tn -> load_partitions w a tn = Ok p ->
           assemble w a p = Ok ds -> False).
Proof.
  unfold main, resolve_task.
  destruct (TASK_MAPPING !! task a) as [tn|]; simpl.
  - destruct (load_partitions w a tn) as [p|e] eqn:Ep; simpl.
    + destruct (assemble w a p) as [ds|e] eqn:Ed; simpl.
      * left. exists tn, p, ds. repeat split; try assumption.
        destruct (dispatch w a p ds) as [t r]. reflexivity.
      * right. split; [eexists; reflexivity|].
        intros tn' p' ds' Htn Hp Hd. injection Htn as <-.
        rewrite Ep in Hp. injection Hp as <-. rewrite Ed in Hd. discriminate.
    + right. split; [eexists; reflexivity|].
      intros tn' p' ds' Htn Hp _. injection Htn as <-. rewrite Ep in Hp. discriminate.
  - right. split; [eexists; reflexivity|]. intros tn' p' ds' Htn. discriminate.
Qed.

(** C2. A task name outside the task table stops the run at the task
    resolution, a mode other than [train], [test] and [test_csts] stops it at
    the mode dispatch with the error that names the mode; in both cases the
    run ends by an exception and nothing was trained, evaluated, encoded or
    written before. *)
Theorem unrecognized_task_or_mode (w : world) (a : args) :
  (task a ∉ ["NLI-STS"; "STS-B"; "MRPC"; "QQP"; "QNLI"; "RTE"] ->
     main w a = ([], Raise AssertionError))
  /\ (mode a ∉ ["train"; "test"; "test_csts"] ->
       (main w a).1 = []
       /\ (exists e, (main w a).2 = Raise e)
       /\ forall tn p ds,
            TASK_MAPPING !! task a = Some tn ->
            load_partitions w a tn = Ok p ->
            assemble w a p = Ok ds ->
            main w a = ([], Raise (ValueError ("not support " ++ mode a)))).
Proof.
  split.
  - intros H. apply TASK_MAPPING_None in H. unfold main, resolve_task.
    rewrite H. reflexivity.
  - intros H.
    destruct (main_prefix w a) as [(tn & p & ds & Htn & Hp & Hd & ->) | [(e & ->) Hno]].
    + rewrite (dispatch_unsupported w a p ds H). simpl.
      split; [reflexivity|]. split; [eexists; reflexivity|]. reflexivity.
    + simpl. split; [reflexivity|]. split; [eexists; reflexivity|].
      intros tn p ds Htn Hp Hd. destruct (Hno tn p ds Htn Hp Hd).
Qed.

(** C2 on the sample world: a task of the distilled loader, which the task
    table lacks, and the mode [eval]. *)
Lemma unrecognized_task_or_mode_witness :
  main sample_world (sample_args "train" "STS-B-ChatGPT" None) = ([], Raise AssertionError)
  /\ main sample_world (sample_args "eval" "STS-B" None)
     = ([], Raise (ValueError "not support eval")).
Proof.
  split.
  - apply (unrecognized_task_or_mode sample_world (sample_args "train" "STS-B-ChatGPT" None)).
    apply (bool_decide_unpack _). vm_compute. exact I.
  - assert (H : mode (sample_args "eval" "STS-B" None) ∉ ["train"; "test"; "test_csts"])
      by (apply (bool_decide_unpack _); vm_compute; exact I).
    destruct (proj2 (unrecognized_task_or_mode sample_world (sample_args "eval" "STS-B" None)) H)
      as (_ & _ & Hv).
    apply (Hv (Tuple ["mteb/stsbenchmark-sts"]) sample_sts_partitions
              {[ "train" := [sample_sts_record; record_label_7_5];
                 "validation" := [ {[ "text1" := VStr "a cat"; "text2" := VStr "a cat";
                                      "label" := VFloat 5%float ]} ];
                 "test" := [record_label_7_5] ]});
      vm_compute; reflexivity.
Defined.

Lemma globals_unbound (a : args) (p : partitions) :
  lookup_name (globals a p) "csts_test_data" = Raise (NameError "csts_test_data").
Proof.
  unfold lookup_name, globals.
  rewrite !lookup_insert_ne by discriminate.
  rewrite lookup_singleton_ne by discriminate. reflexivity.
Qed.

Lemma test_csts_mode_fails (w : world) (a : args) (p : partitions) :
  exists e, test_csts_mode w a (globals a p) = ([], Raise e)
            /\ (from_pretrained w (save_dir a) = None -> e = NameError "csts_test_data").
Proof.
  unfold test_csts_mode, call. destruct (from_pretrained w (save_dir a)) as [e|]; simpl.
  - exists e. split; [reflexivity | discriminate].
  - rewrite globals_unbound. simpl. eexists. split; reflexivity.
Qed.

(** C6: what the code does. In the mode [test_csts] the run reads the name
    [csts_test_data], which no statement of the script binds: on the sample
    world it ends by that [NameError] with an empty trace, and in no world
    does it write a file or end normally. *)
Theorem test_csts_raises_name_error :
  main sample_world (sample_args "test_csts" "STS-B" None)
    = ([], Raise (NameError "csts_test_data"))
  /\ (forall w a, mode a = "test_csts" ->
        (main w a).1 = []
        /\ (forall path results, Dump path results ∉ (main w a).1)
        /\ (exists e, (main w a).2 = Raise e)
        /\ forall tn p ds,
             TASK_MAPPING !! task a = Some tn ->
             load_partitions w a tn = Ok p ->
             assemble w a p = Ok ds ->
             from_pretrained w (save_dir a) = None ->
             main w a = ([], Raise (NameError "csts_test_data"))).
Proof.
  split; [vm_compute; reflexivity|].
  intros w a Hm.
  assert (Hd : forall p ds, dispatch w a p ds = test_csts_mode w a (globals a p)).
  { intros p ds. unfold dispatch. rewrite Hm. reflexivity. }
  assert (H : (main w a).1 = [] /\ (exists e, (main w a).2 = Raise e)
              /\ forall tn p ds,
                   TASK_MAPPING !! task a = Some tn ->
                   load_partitions w a tn = Ok p ->
                   assemble w a p = Ok ds ->
                   from_pretrained w (save_dir a) = None ->
                   main w a = ([], Raise (NameError "csts_test_data"))).
  { destruct (main_prefix w a) as [(tn & p & ds & Htn & Hp & Hds & Hmain) | [(e & Hmain) Hno]].
    - rewrite Hmain, Hd. destruct (test_csts_mode_fails w a p) as (e & -> & He). simpl.
      split; [reflexivity|]. split; [eexists; reflexivity|].
      intros tn' p' ds' Htn' Hp' _ Hf. rewrite (He Hf). reflexivity.
    - rewrite Hmain. simpl. split; [reflexivity|]. split; [eexists; reflexivity|].
      intros tn p ds Htn Hp Hds. destruct (Hno tn p ds Htn Hp Hds). }
  destruct H as (Ht & He & Hn).
  split; [exact Ht|]. split; [|split; [exact He | exact Hn]].
  intros path results. rewrite Ht. apply not_elem_of_nil.
Qed.


(** * Further properties of the loaders and of the run *)

(** ** The distilled STS-B files *)

Lemma load_line_plain (w : world) (line : string) (o : option record) :
  load_line w false line = Ok o ->
  (is_empty (strip line) = true /\ o = None)
  \/ (nonblank_line line /\ exists r, line_record w line r /\ o = Some r).
Proof.
  unfold load_line, nonblank_line, line_record. intros H.
  destruct (is_empty (strip line)); [left; inversion H; split; reflexivity|].
  right. split; [reflexivity|].
  apply bind_Ok in H as (obj & Hobj & H). simpl in H.
  apply bind_Ok in H as (r & Hr & H). inversion H.
  exists r. split; [exists obj; split; assumption | reflexivity].
Qed.

Lemma load_lines_plain (w : world) (lines : list string) (rs : list (option record)) :
  for_each (load_line w false) lines = Ok rs ->
  Forall2 (line_record w) (filter nonblank_line lines) (omap id rs).
Proof.
  intros H. apply for_each_Forall2 in H.
  induction H as [|line o lines rs Ho _ IH]; [constructor|].
  apply load_line_plain in Ho as [[Hb ->] | [Hn (r & Hr & ->)]].
  - rewrite filter_cons_False; [exact IH|].
    unfold nonblank_line. rewrite Hb. discriminate.
  - rewrite filter_cons_True by exact Hn. simpl. constructor; assumption.
Qed.

Lemma load_files_plain (w : world) (fpaths : list string) (ds : list (list record)) :
  for_each (load_file w false) fpaths = Ok ds ->
  exists files,
    Forall2 (fun fpath lines => read_lines w fpath = Ok lines) fpaths files
    /\ Forall2 (line_record w) (filter nonblank_line (concat files)) (concat ds).
Proof.
  intros H. apply for_each_Forall2 in H.
  induction H as [|fpath d fpaths ds Hd _ IH].
  - exists []. split; constructor.
  - destruct IH as (files & Hfiles & Hrecs).
    unfold load_file in Hd. apply bind_Ok in Hd as (lines & Hlines & Hd).
    apply bind_Ok in Hd as (rs & Hrs & Hd). inversion Hd. subst d.
    exists (lines :: files). split; [constructor; assumption|].
    simpl. rewrite filter_app. apply Forall2_app; [|exact Hrecs].
    apply load_lines_plain, Hrs.
Qed.

(** X1. Without [skip_neg] the loader of the distilled files keeps every
    line that is not blank and nothing else: the data are the records of
    the non-blank lines of the files, one for one and in the order read. *)
Theorem load_keeps_every_nonblank_line (w : world) (fpaths : string + list string)
    (data : list record) :
  load w fpaths false = Ok data ->
  exists files,
    Forall2 (fun fpath lines => read_lines w fpath = Ok lines) (as_list fpaths) files
    /\ Forall2 (line_record w) (filter nonblank_line (concat files)) data
    /\ length data = length (filter nonblank_line (concat files)).
Proof.
  unfold load. intros H. apply bind_Ok in H as (ds & Hds & H). inversion H. subst data.
  destruct (load_files_plain w _ ds Hds) as (files & Hfiles & Hrecs). exists files.
  split; [exact Hfiles|]. split; [exact Hrecs|].
  symmetry. eapply Forall2_length, Hrecs.
Qed.

(** X1 on the sample file: three lines, one of them blank, two records. *)
Lemma load_keeps_every_nonblank_line_witness :
  load sample_world (inl "stsb.jsonl") false = Ok [record_far; record_near]
  /\ exists files,
       Forall2 (fun fpath lines => read_lines sample_world fpath = Ok lines)
         ["stsb.jsonl"] files
       /\ Forall2 (line_record sample_world) (filter nonblank_line (concat files))
            [record_far; record_near]
       /\ length [record_far; record_near] = length (filter nonblank_line (concat files)).
Proof.
  split; [vm_compute; reflexivity|].
  apply (load_keeps_every_nonblank_line sample_world (inl "stsb.jsonl")).
  vm_compute. reflexivity.
Defined.

Lemma py_float_of_zero (c : text_conv) (s : value) :
  py_eq s (VInt 0) = true -> exists f, py_float c s = Ok f.
Proof.
  destruct s as [| b | z | f | s]; simpl; intros H; try discriminate.
  - eexists. reflexivity.
  - apply Z.eqb_eq in H. subst z. eexists. reflexivity.
  - eexists. reflexivity.
Qed.

Lemma word_diff_Ok (obj : row) (n : nat) :
  word_diff obj = Ok n <->
  exists s1 s2, obj !! "sentence1" = Some (VStr s1) /\ obj !! "sentence2" = Some (VStr s2)
                /\ n = size ((list_to_set (split s1) : gset string) ∖ list_to_set (split s2)).
Proof.
  unfold word_diff. split.
  - intros H. apply bind_Ok in H as (v1 & H1 & H). apply bind_Ok in H as (ws1 & Hw1 & H).
    apply bind_Ok in H as (v2 & H2 & H). apply bind_Ok in H as (ws2 & Hw2 & H).
    apply getitem_Ok in H1, H2.
    destruct v1 as [| | | |s1]; try discriminate. destruct v2 as [| | | |s2]; try discriminate.
    inversion Hw1. inversion Hw2. inversion H. subst. exists s1, s2. repeat split; assumption.
  - intros (s1 & s2 & H1 & H2 & ->). apply getitem_Ok in H1, H2.
    rewrite H1. simpl. rewrite H2. reflexivity.
Qed.

(** A line dropped by the guard would have given a record without it. *)
Lemma skipped_has_record (c : text_conv) (obj : row) :
  skip true obj = Ok true -> exists r, sts_record c obj = Ok r.
Proof.
  intros H. apply skip_true in H as (s & n & Hs & Hz & Hn & _).
  apply word_diff_Ok in Hn as (s1 & s2 & H1 & H2 & _).
  destruct (py_float_of_zero c s Hz) as (f & Hf).
  apply getitem_Ok in Hs, H1, H2.
  unfold sts_record. rewrite H1, H2. simpl. rewrite Hs. simpl. rewrite Hf. simpl.
  eexists. reflexivity.
Qed.

Lemma load_line_skip_neg (w : world) (line : string) (o : option record) :
  load_line w true line = Ok o ->
  exists o', load_line w false line = Ok o' /\ (o = o' \/ o = None).
Proof.
  unfold load_line. destruct (is_empty (strip line)).
  - intros H. exists None. split; [reflexivity | left; inversion H; reflexivity].
  - destruct (json_loads w (strip line)) as [obj|e]; simpl; [|discriminate].
    intros H. apply bind_Ok in H as (b & Hb & H). destruct b.
    + inversion H. destruct (skipped_has_record (conv w) obj Hb) as (r & Hr).
      rewrite Hr. simpl. exists (Some r). split; [reflexivity | right; reflexivity].
    + exists o. split; [exact H | left; reflexivity].
Qed.

Lemma load_lines_skip_neg (w : world) (lines : list string) (rs : list (option record)) :
  for_each (load_line w true) lines = Ok rs ->
  exists rs', for_each (load_line w false) lines = Ok rs'
              /\ omap id rs `sublist_of` omap id rs'.
Proof.
  revert rs. induction lines as [|line lines IH]; intros rs H; simpl in *.
  - inversion H. exists []. split; [reflexivity | constructor].
  - apply bind_Ok in H as (o & Ho & H). apply bind_Ok in H as (rs0 & Hrs & H).
    inversion H. subst rs.
    destruct (load_line_skip_neg w line o Ho) as (o' & Ho' & Hrel).
    destruct (IH rs0 Hrs) as (rs' & Hrs' & Hsub).
    exists (o' :: rs'). rewrite Ho', Hrs'. split; [reflexivity|].
    destruct Hrel as [-> | ->].
    + destruct o' as [r|]; simpl; [apply sublist_skip|]; exact Hsub.
    + destruct o' as [r|]; simpl; [apply sublist_cons|]; exact Hsub.
Qed.

Lemma load_files_skip_neg (w : world) (fpaths : list string) (ds : list (list record)) :
  for_each (load_file w true) fpaths = Ok ds ->
  exists ds', for_each (load_file w false) fpaths = Ok ds'
              /\ concat ds `sublist_of` concat ds'.
Proof.
  revert ds. induction fpaths as [|fpath fpaths IH]; intros ds H; simpl in *.
  - inversion H. exists []. split; [reflexivity | constructor].
  - apply bind_Ok in H as (d & Hd & H). apply bind_Ok in H as (ds0 & Hds & H).
    inversion H. subst ds.
    unfold load_file in Hd. apply bind_Ok in Hd as (lines & Hlines & Hd).
    apply bind_Ok in Hd as (rs & Hrs & Hd). inversion Hd. subst d.
    destruct (load_lines_skip_neg w lines rs Hrs) as (rs' & Hrs' & Hsub).
    destruct (IH ds0 Hds) as (ds' & Hds' & Hsubs).
    exists (omap id rs' :: ds'). unfold load_file at 1. rewrite Hlines. simpl.
    rewrite Hrs'. simpl. rewrite Hds'. simpl. split; [reflexivity|].
    apply sublist_app; assumption.
Qed.

(** X2. The guard of [skip_neg] only removes records: whenever the files
    load with it, they load without it too, and the data obtained with the
    guard are the data obtained without it less some records, the others
    being in the same order. *)
Theorem skip_neg_only_removes (w : world) (fpaths : string + list string)
    (data : list record) :
  load w fpaths true = Ok data ->
  exists data', load w fpaths false = Ok data' /\ data `sublist_of` data'.
Proof.
  unfold load. intros H. apply bind_Ok in H as (ds & Hds & H). inversion H. subst data.
  destruct (load_files_skip_neg w _ ds Hds) as (ds' & Hds' & Hsub).
  exists (concat ds'). rewrite Hds'. split; [reflexivity | exact Hsub].
Qed.

(** X2 on the sample file: the guard removes the record of the near pair. *)
Lemma skip_neg_only_removes_witness :
  load sample_world (inl "stsb.jsonl") true = Ok [record_far]
  /\ load sample_world (inl "stsb.jsonl") false = Ok [record_far; record_near]
  /\ exists data', load sample_world (inl "stsb.jsonl") false = Ok data'
                   /\ [record_far] `sublist_of` data'.
Proof.
  split; [vm_compute; reflexivity|]. split; [vm_compute; reflexivity|].
  apply (skip_neg_only_removes sample_world (inl "stsb.jsonl")).
  vm_compute. reflexivity.
Defined.

Lemma size_list_to_set_le (l : list string) :
  (size (list_to_set l : gset string) <= length l)%nat.
Proof.
  induction l as [|x l IH].
  - rewrite list_to_set_nil, size_empty. simpl. lia.
  - rewrite list_to_set_cons, size_union_alt, size_singleton. simpl.
    assert ((size ((list_to_set l : gset string) ∖ {[x]}) <= size (list_to_set l : gset string))%nat)
      by (apply subseteq_size, subseteq_difference_l; reflexivity).
    lia.
Qed.

(** X3. With [skip_neg], an object scored 0 whose first sentence has fewer
    than five words is dropped whatever its second sentence is: the words the
    second sentence lacks are never more than the words of the first. *)
Theorem skip_neg_drops_short_first_sentence (w : world) (line : string) (obj : row)
    (s : value) (s1 s2 : string) :
  nonblank_line line ->
  json_loads w (strip line) = Ok obj ->
  obj !! "score" = Some s -> py_eq s (VInt 0) = true ->
  obj !! "sentence1" = Some (VStr s1) -> obj !! "sentence2" = Some (VStr s2) ->
  (length (split s1) < 5)%nat ->
  skip true obj = Ok true /\ load_line w true line = Ok None.
Proof.
  intros Hne Hobj Hs Hz H1 H2 Hlen.
  assert (Hskip : skip true obj = Ok true).
  { apply skip_true. exists s. eexists. split; [exact Hs|]. split; [exact Hz|].
    split; [apply word_diff_Ok; exists s1, s2; repeat split; assumption|].
    pose proof (size_list_to_set_le (split s1)) as Hle.
    assert ((size ((list_to_set (split s1) : gset string) ∖ list_to_set (split s2))
             <= size (list_to_set (split s1) : gset string))%nat)
      by (apply subseteq_size, subseteq_difference_l; reflexivity).
    lia. }
  split; [exact Hskip|].
  apply (load_line_dropped w true line obj Hne Hobj). exact Hskip.
Qed.

(** X3 on the near pair of the sample file, whose first sentence has three
    words. *)
Lemma skip_neg_drops_short_first_sentence_witness :
  skip true obj_near = Ok true /\ load_line sample_world true "near" = Ok None.
Proof.
  apply (skip_neg_drops_short_first_sentence sample_world "near" obj_near (VInt 0)
           "a man runs" "a man walks"); try reflexivity.
  vm_compute. lia.
Defined.

(** ** Hub rows: labels outside the table, rows that fail *)

Lemma label_mapping_lookup (task key : string) :
  key <> "0" -> key <> "1" -> label_mapping task !! key = None.
Proof.
  intros H0 H1. unfold label_mapping. case_bool_decide.
  - rewrite lookup_insert_ne by congruence. apply lookup_singleton_ne. congruence.
  - apply lookup_empty.
Qed.

(** X4. The table of QNLI and RTE touches the labels 0 and 1 only: every
    other integer label (the -1 of an unlabelled test row, say) comes out as
    it went in, under every task; a task other than QNLI and RTE changes no
    integer label at all; a boolean label is converted, never exchanged; a
    missing label ([None]) is a [TypeError]. *)
Theorem remap_leaves_other_labels (c : text_conv) (task : string) :
  (forall l, l <> 0 -> l <> 1 -> remap c task (VInt l) = Ok l)
  /\ (task ∉ ["QNLI"; "RTE"] -> forall l, remap c task (VInt l) = Ok l)
  /\ (forall b : bool, remap c task (VBool b) = Ok (if b then 1 else 0))
  /\ remap c task VNone = Raise TypeError.
Proof.
  split; [|split; [|split]].
  - intros l H0 H1. unfold remap, mapping_get. simpl.
    rewrite label_mapping_lookup; [reflexivity | |].
    + intros H. apply H0. apply (inj pretty). exact H.
    + intros H. apply H1. apply (inj pretty). exact H.
  - intros Ht l. unfold remap, mapping_get, label_mapping.
    rewrite bool_decide_eq_false_2 by exact Ht. rewrite lookup_empty. reflexivity.
  - intros b. unfold remap, mapping_get.
    rewrite label_mapping_lookup; [reflexivity | |]; destruct b; discriminate.
  - unfold remap, mapping_get. rewrite label_mapping_lookup; [reflexivity | |]; discriminate.
Qed.

Lemma for_each_Raise {A B : Type} (f : A -> result B) (xs ys : list A) (x : A) (e : exn) :
  Forall (fun x' => exists y, f x' = Ok y) xs -> f x = Raise e ->
  for_each f (xs ++ x :: ys)%list = Raise e.
Proof.
  intros Hxs Hx. induction Hxs as [|x' xs (y & Hy) _ IH]; simpl.
  - rewrite Hx. reflexivity.
  - rewrite Hy. simpl. rewrite IH. reflexivity.
Qed.

Lemma normalize_missing_text (c : text_conv) (task : string) (obj : row) :
  (obj !! (columns task).1 = None ->
     normalize c task obj = Raise (KeyError (VStr (columns task).1)))
  /\ (is_Some (obj !! (columns task).1) -> obj !! (columns task).2 = None ->
     normalize c task obj = Raise (KeyError (VStr (columns task).2))).
Proof.
  unfold normalize. destruct (columns task) as [col1 col2]. simpl. split.
  - intros H. unfold getitem. rewrite H. reflexivity.
  - intros [t1 H1] H2. unfold getitem. rewrite H1, H2. reflexivity.
Qed.

(** X5. The hub loader gives all the records of a split or none: a split
    the dataset lacks is a [KeyError] of its name, a row without one of its
    two text columns a [KeyError] of that column, and the exception of the
    first row that fails is the outcome of the whole load, whatever the
    rows before and after it are. *)
Theorem load_data_all_or_nothing (w : world) (task : string) (tn : target)
    (split_name : string) (ds : gmap string (list row)) :
  load_dataset w (star tn) = Ok ds ->
  (ds !! split_name = None ->
     load_data w task tn split_name = Raise (KeyError (VStr split_name)))
  /\ (forall good bad rest e,
        ds !! split_name = Some (good ++ bad :: rest)%list ->
        Forall (fun obj => exists r, normalize (conv w) task obj = Ok r) good ->
        normalize (conv w) task bad = Raise e ->
        load_data w task tn split_name = Raise e)
  /\ (forall good bad rest,
        ds !! split_name = Some (good ++ bad :: rest)%list ->
        Forall (fun obj => exists r, normalize (conv w) task obj = Ok r) good ->
        is_Some (bad !! (columns task).1) -> bad !! (columns task).2 = None ->
        load_data w task tn split_name = Raise (KeyError (VStr (columns task).2))).
Proof.
  intros Hds.
  assert (Hp : forall good bad rest e,
             ds !! split_name = Some (good ++ bad :: rest)%list ->
             Forall (fun obj => exists r, normalize (conv w) task obj = Ok r) good ->
             normalize (conv w) task bad = Raise e ->
             load_data w task tn split_name = Raise e).
  { intros good bad rest e Hs Hgood Hbad. unfold load_data, getsplit.
    rewrite Hds. simpl. rewrite Hs. simpl. apply for_each_Raise; assumption. }
  split; [|split].
  - intros Hs. unfold load_data, getsplit. rewrite Hds. simpl. rewrite Hs. reflexivity.
  - exact Hp.
  - intros good bad rest Hs Hgood H1 H2. apply (Hp good bad rest); [exact Hs | exact Hgood|].
    apply normalize_missing_text; assumption.
Qed.

(** X5 on a hub whose second train row has no [text2]. *)
Lemma load_data_all_or_nothing_witness :
  load_data (world_with_hub sample_world hub_missing_text) "QQP" (Tuple ["SetFit/qqp"]) "train"
    = Raise (KeyError (VStr "text2"))
  /\ load_data (world_with_hub sample_world hub_missing_text) "QQP" (Tuple ["SetFit/qqp"]) "test"
    = Raise (KeyError (VStr "test")).
Proof.
  pose proof (load_data_all_or_nothing (world_with_hub sample_world hub_missing_text)
                "QQP" (Tuple ["SetFit/qqp"])) as H.
  split.
  - destruct (H "train" _ eq_refl) as (_ & _ & Hrow).
    apply (Hrow [pair_row "q1" "q2" 1] {[ "text1" := VStr "q3"; "label" := VInt 0 ]}
                [pair_row "q5" "q6" 1]).
    + reflexivity.
    + constructor; [eexists; vm_compute; reflexivity | constructor].
    + eexists. reflexivity.
    + reflexivity.
  - destruct (H "test" _ eq_refl) as (Hsplit & _). apply Hsplit. reflexivity.
Defined.

(** ** AllNLI: which rows give a record, and with which label *)

Lemma nli_mapping_item (l : value) (z : Z) :
  Nli.mapping_item l = Ok z -> py_eq l (VStr "neutral") = false ->
  exists s, l = VStr s /\ (s = "entailment" \/ s = "contradiction")
            /\ z = (if bool_decide (s = "entailment") then 1 else 0).
Proof.
  unfold Nli.mapping_item. destruct l as [| | | |s]; try discriminate.
  simpl. intros H Hn. apply bool_decide_eq_false_1 in Hn.
  exists s. split; [reflexivity|]. unfold Nli.label_mapping in H.
  destruct (decide (s = "entailment")) as [->|He].
  - split; [left; reflexivity|]. vm_compute in H. inversion H. reflexivity.
  - rewrite lookup_insert_ne in H by congruence.
    rewrite lookup_insert_ne in H by congruence.
    destruct (decide (s = "contradiction")) as [->|Hc].
    + split; [right; reflexivity|]. vm_compute in H. inversion H. reflexivity.
    + rewrite lookup_singleton_ne in H by congruence. discriminate.
Qed.

Lemma nli_row_cases (b : bool) (obj : row) (o : option record) :
  Nli.nli_row b obj = Ok o ->
  (~ nli_kept obj /\ o = None) \/ (nli_kept obj /\ exists r, nli_record obj r /\ o = Some r).
Proof.
  rewrite nli_row_flag. unfold Nli.nli_row. intros H.
  apply bind_Ok in H as (sp & Hsp & H). apply getitem_Ok in Hsp.
  destruct (py_eq sp (VStr "train")) eqn:Et.
  - apply bind_Ok in H as (l & Hl & H). apply getitem_Ok in Hl.
    destruct (py_eq l (VStr "neutral")) eqn:En; simpl in H.
    + left. inversion H. split; [|reflexivity].
      intros (sp' & l' & _ & Hb2 & _ & Hb4). rewrite Hl in Hb2. inversion Hb2. subst. congruence.
    + right. split; [exists sp, l; repeat split; assumption|].
      apply bind_Ok in H as (skipped & Hsk & H).
      apply bind_Ok in Hsk as (l' & Hl' & Hsk). apply getitem_Ok in Hl'.
      rewrite Hl in Hl'. inversion Hl'. subst l'. rewrite En in Hsk. inversion Hsk. subst skipped.
      apply bind_Ok in H as (v1 & H1 & H). apply bind_Ok in H as (s1 & Hs1 & H).
      apply bind_Ok in H as (v2 & H2 & H). apply bind_Ok in H as (s2 & Hs2 & H).
      apply bind_Ok in H as (l2 & Hl2 & H). apply bind_Ok in H as (z & Hz & H).
      apply getitem_Ok in H1, H2, Hl2. rewrite Hl in Hl2. inversion Hl2. subst l2.
      apply strip_value_Ok in Hs1 as (t1 & -> & ->).
      apply strip_value_Ok in Hs2 as (t2 & -> & ->).
      destruct (nli_mapping_item l z Hz En) as (s & -> & Hs & ->).
      inversion H. eexists. split; [|reflexivity].
      exists t1, t2, s. repeat split; assumption.
  - left. inversion H. split; [|reflexivity].
    intros (sp' & l' & Hb1 & _ & Hb3 & _). rewrite Hsp in Hb1. inversion Hb1. subst. congruence.
Qed.

(** X6. Whatever [exclude_neutral] is, the records of the AllNLI loader are
    the records of the rows whose split is [train] and whose label is not
    [neutral], one for one and in order; each holds the trimmed sentences and
    the label 1 for an entailment, 0 for a contradiction, so every label is 0
    or 1 and no record comes from the table entry of [neutral]. *)
Theorem nli_records_of_kept_rows (b : bool) (rows : list row) (recs : list record) :
  Nli.load_rows b rows = Ok recs ->
  Forall2 nli_record (filter nli_kept rows) recs
  /\ Forall (fun r => r !! "label" = Some (VInt 0) \/ r !! "label" = Some (VInt 1)) recs.
Proof.
  unfold Nli.load_rows. intros H. apply bind_Ok in H as (rs & Hrs & H).
  inversion H. subst recs. clear H. apply for_each_Forall2 in Hrs.
  assert (H2 : Forall2 nli_record (filter nli_kept rows) (omap id rs)).
  { induction Hrs as [|obj o rows rs Ho _ IH]; [constructor|].
    apply nli_row_cases in Ho as [[Hk ->] | [Hk (r & Hr & ->)]].
    - rewrite filter_cons_False by exact Hk. exact IH.
    - rewrite filter_cons_True by exact Hk. simpl. constructor; assumption. }
  split; [exact H2|].
  induction H2 as [|obj r objs recs Hr _ IH]; constructor; [|exact IH].
  destruct Hr as (s1 & s2 & l & _ & _ & _ & _ & ->).
  case_bool_decide; [right | left]; reflexivity.
Qed.

(** X6 on three rows: a dev row that has no other column, a contradiction
    and the neutral row. *)
Lemma nli_records_of_kept_rows_witness :
  Nli.load_rows false [nli_row_dev; nli_row_contra; nli_row_neutral]
    = Ok [ {[ "text1" := VStr "A man eats."; "text2" := VStr "Nobody eats.";
              "label" := VInt 0 ]} ]
  /\ Forall (fun r => r !! "label" = Some (VInt 0) \/ r !! "label" = Some (VInt 1))
       [ ({[ "text1" := VStr "A man eats."; "text2" := VStr "Nobody eats.";
             "label" := VInt 0 ]} : record) ].
Proof.
  split; [vm_compute; reflexivity|].
  apply (nli_records_of_kept_rows false [nli_row_dev; nli_row_contra; nli_row_neutral]).
  vm_compute. reflexivity.
Defined.

(** X7. A train row of AllNLI whose label is none of [entailment],
    [neutral] and [contradiction] makes the loader raise the [KeyError] of
    that label, as soon as its two sentences are strings; a row of another
    split is passed over without a look at its other columns, even when it
    has none. *)
Theorem nli_unknown_label_raises (b : bool) (obj : row) :
  (forall sp, obj !! "split" = Some sp -> py_eq sp (VStr "train") = false ->
     Nli.nli_row b obj = Ok None)
  /\ (forall l s1 s2,
        obj !! "split" = Some (VStr "train") -> obj !! "label" = Some (VStr l) ->
        obj !! "sentence1" = Some (VStr s1) -> obj !! "sentence2" = Some (VStr s2) ->
        l ∉ ["entailment"; "neutral"; "contradiction"] ->
        Nli.nli_row b obj = Raise (KeyError (VStr l))
        /\ forall before after,
             Forall (fun x => exists o, Nli.nli_row b x = Ok o) before ->
             Nli.load_rows b (before ++ obj :: after)%list = Raise (KeyError (VStr l))).
Proof.
  split.
  - intros sp Hsp Hne. unfold Nli.nli_row, getitem. rewrite Hsp. simpl. rewrite Hne.
    reflexivity.
  - intros l s1 s2 Hsp Hl H1 H2 Hnot.
    rewrite !not_elem_of_cons in Hnot. destruct Hnot as (He & Hn & Hc & _).
    assert (Hrow : Nli.nli_row b obj = Raise (KeyError (VStr l))).
    { assert (Et : py_eq (VStr "train") (VStr "train") = true) by reflexivity.
      assert (En : py_eq (VStr l) (VStr "neutral") = false)
        by (unfold py_eq; apply bool_decide_eq_false_2; exact Hn).
      rewrite nli_row_flag. unfold Nli.nli_row, getitem.
      rewrite Hsp. cbn [bind]. rewrite Et, Hl. cbn [bind]. rewrite En. cbn [bind negb].
      rewrite H1. cbn [bind strip_value]. rewrite H2. cbn [bind strip_value Nli.mapping_item].
      unfold Nli.label_mapping.
      rewrite !lookup_insert_ne by congruence.
      rewrite lookup_singleton_ne by congruence. reflexivity. }
    split; [exact Hrow|].
    intros before after Hb. unfold Nli.load_rows.
    rewrite (for_each_Raise _ before after obj _ Hb Hrow). reflexivity.
Qed.

(** X7 on the dev row and on the train row labelled with a dash. *)
Lemma nli_unknown_label_raises_witness :
  Nli.nli_row true nli_row_dev = Ok None
  /\ Nli.load_rows true [nli_row_contra; nli_row_dash; nli_row_neutral]
     = Raise (KeyError (VStr "-")).
Proof.
  split.
  - apply (proj1 (nli_unknown_label_raises true nli_row_dev) (VStr "dev")); reflexivity.
  - destruct (proj2 (nli_unknown_label_raises true nli_row_dash) "-"
                "A man eats." "Nobody eats." eq_refl eq_refl eq_refl eq_refl) as (_ & H).
    + apply (bool_decide_unpack _). vm_compute. exact I.
    + apply (H [nli_row_contra] [nli_row_neutral]).
      constructor; [eexists; vm_compute; reflexivity | constructor].
Defined.

(** ** [load_stsb_llm] and the task table *)

(** X8. No task the script accepts can load a distilled train file: for
    every task of [TASK_MAPPING], [load_stsb_llm] on the split [train] raises
    [NotImplementedError] without reading anything; and on every other split
    it loads the STS benchmark, the same for all tasks. *)
Theorem stsb_llm_tasks_not_in_table (w : world) (a : args) (tn : target) :
  resolve_task a = Ok tn ->
  load_stsb_llm w (task a) "train" = Raise NotImplementedError
  /\ forall split_name task', split_name <> "train" ->
       load_stsb_llm w (task a) split_name = load_stsb_llm w task' split_name.
Proof.
  intros H. split.
  - unfold resolve_task in H.
    destruct (TASK_MAPPING !! task a) eqn:E; [clear H | discriminate].
    assert (Hin : task a ∈ ["NLI-STS"; "STS-B"; "MRPC"; "QQP"; "QNLI"; "RTE"]).
    { destruct (decide (task a ∈ ["NLI-STS"; "STS-B"; "MRPC"; "QQP"; "QNLI"; "RTE"]))
        as [Hin|Hout]; [exact Hin|].
      apply TASK_MAPPING_None in Hout. rewrite Hout in E. discriminate. }
    elem_cases Hin; rewrite Hin; reflexivity.
  - intros split_name task' Hs. unfold load_stsb_llm.
    rewrite !bool_decide_eq_false_2 by exact Hs. reflexivity.
Qed.

(** X8 on the default task. *)
Lemma stsb_llm_tasks_not_in_table_witness :
  resolve_task (sample_args "train" "STS-B" None) = Ok (Tuple ["mteb/stsbenchmark-sts"])
  /\ load_stsb_llm sample_world "STS-B" "train" = Raise NotImplementedError.
Proof.
  split; [reflexivity|].
  apply (stsb_llm_tasks_not_in_table sample_world (sample_args "train" "STS-B" None)
           (Tuple ["mteb/stsbenchmark-sts"]) eq_refl).
Defined.

(** ** The C-STS loader: its bookkeeping *)

Lemma csts_step_state (st st' : Csts.state) (obj : row) :
  Csts.step st obj = Ok st' ->
  exists s1 s2 c l,
    st' = {| Csts.data :=
               (Csts.data st ++ [ {[ "text1" := VStr s1; "text2" := VStr s2;
                                     "label" := l; "condition" := VStr c ]} ])%list;
             Csts.sentence_condition_map :=
               <[(s1, s2) := {[c]} ∪ default ∅ (Csts.sentence_condition_map st !! (s1, s2))]>
                 (Csts.sentence_condition_map st);
             Csts.sentence_label_map :=
               <[(s1, s2) := Csts.set_add l (default [] (Csts.sentence_label_map st !! (s1, s2)))]>
                 (Csts.sentence_label_map st);
             Csts.all_conditions := {[c]} ∪ Csts.all_conditions st |}.
Proof.
  unfold Csts.step. intros H.
  apply bind_Ok in H as (v1 & H1 & H). apply bind_Ok in H as (s1 & Hs1 & H).
  cbv zeta in H.
  apply bind_Ok in H as (v2 & H2 & H). apply bind_Ok in H as (s2 & Hs2 & H).
  apply bind_Ok in H as (vc & Hc & H). apply bind_Ok in H as (c & Hsc & H).
  apply bind_Ok in H as (l & Hl & H). apply bind_Ok in H as (l' & Hl' & H).
  apply bind_Ok in H as (c' & Hc' & H).
  apply getitem_Ok in Hl, Hl', Hc'.
  rewrite lookup_insert_eq in Hc'. inversion Hc'. subst c'.
  rewrite Hl in Hl'. inversion Hl'. subst l'.
  inversion H. exists s1, s2, c, l. reflexivity.
Qed.

Lemma csts_step_consistent (st st' : Csts.state) (obj : row) :
  csts_consistent st -> Csts.step st obj = Ok st' -> csts_consistent st'.
Proof.
  intros [Hmap Hall] H. apply csts_step_state in H as (s1 & s2 & c & l & ->).
  set (r := ({[ "text1" := VStr s1; "text2" := VStr s2; "label" := l;
                "condition" := VStr c ]} : record)).
  assert (R1 : r !! "text1" = Some (VStr s1)) by reflexivity.
  assert (R2 : r !! "text2" = Some (VStr s2)) by reflexivity.
  assert (R3 : r !! "condition" = Some (VStr c)) by reflexivity.
  split; simpl.
  - intros a b c0. destruct (decide ((a, b) = (s1, s2))) as [E|E].
    + inversion E. subst a b. rewrite lookup_insert_eq. simpl.
      rewrite elem_of_union, elem_of_singleton, Hmap. split.
      * intros [-> | (r' & Hin & Hr)].
        -- exists r. split; [apply elem_of_app; right; constructor|]. repeat split; assumption.
        -- exists r'. split; [apply elem_of_app; left; exact Hin | exact Hr].
      * intros (r' & Hin & T1 & T2 & T3). apply elem_of_app in Hin as [Hin | Hin].
        -- right. exists r'. repeat split; assumption.
        -- apply list_elem_of_singleton in Hin. subst r'. left.
           rewrite R3 in T3. inversion T3. reflexivity.
    + rewrite lookup_insert_ne by congruence. rewrite Hmap. split.
      * intros (r' & Hin & Hr). exists r'. split; [apply elem_of_app; left; exact Hin | exact Hr].
      * intros (r' & Hin & T1 & T2 & T3). apply elem_of_app in Hin as [Hin | Hin].
        -- exists r'. repeat split; assumption.
        -- apply list_elem_of_singleton in Hin. subst r'.
           rewrite R1 in T1. rewrite R2 in T2. inversion T1. inversion T2. subst.
           destruct E. reflexivity.
  - intros c0. rewrite elem_of_union, elem_of_singleton, Hall. split.
    + intros [-> | (r' & Hin & Hr)].
      * exists r. split; [apply elem_of_app; right; constructor | exact R3].
      * exists r'. split; [apply elem_of_app; left; exact Hin | exact Hr].
    + intros (r' & Hin & T3). apply elem_of_app in Hin as [Hin | Hin].
      * right. exists r'. split; assumption.
      * apply list_elem_of_singleton in Hin. subst r'. left.
        rewrite R3 in T3. inversion T3. reflexivity.
Qed.

Lemma csts_loop_consistent (ds : list row) (st st' : Csts.state) :
  csts_consistent st -> Csts.loop st ds = Ok st' -> csts_consistent st'.
Proof.
  revert st. induction ds as [|obj ds IH]; intros st Hst H; simpl in H.
  - inversion H. subst st'. exact Hst.
  - apply bind_Ok in H as (st1 & Hstep & Hloop).
    apply (IH st1); [eapply csts_step_consistent; eassumption | exact Hloop].
Qed.

(** X9. The bookkeeping of the C-STS loop is kept in step with its data:
    when the loop ends, the set filed under a sentence pair holds exactly
    the conditions of the records with that pair, and [all_conditions]
    exactly the conditions of all records; the data are the records the
    loader returns. *)
Theorem csts_bookkeeping_consistent (ds : list row) (st : Csts.state) :
  Csts.loop Csts.init ds = Ok st ->
  csts_consistent st /\ Csts.load_data ds = Ok (Csts.data st).
Proof.
  intros H. split.
  - apply (csts_loop_consistent ds Csts.init st); [|exact H].
    split; simpl.
    + intros s1 s2 c. rewrite lookup_empty. simpl. split.
      * intros Hc. apply not_elem_of_empty in Hc. destruct Hc.
      * intros (r & Hin & _). apply elem_of_nil in Hin. destruct Hin.
    + intros c. split.
      * intros Hc. apply not_elem_of_empty in Hc. destruct Hc.
      * intros (r & Hin & _). apply elem_of_nil in Hin. destruct Hin.
  - unfold Csts.load_data. rewrite H. reflexivity.
Qed.

(** X9 on the repeated row: one pair, one condition, two records. *)
Lemma csts_bookkeeping_consistent_witness :
  exists st, Csts.loop Csts.init [csts_row_dup; csts_row_dup] = Ok st
             /\ csts_consistent st
             /\ Csts.data st = [csts_record_dup; csts_record_dup]
             /\ size (Csts.all_conditions st) = 1%nat.
Proof.
  eexists. split; [vm_compute; reflexivity|].
  split; [|split; [reflexivity | vm_compute; reflexivity]].
  apply (csts_bookkeeping_consistent [csts_row_dup; csts_row_dup]).
  vm_compute. reflexivity.
Defined.

(** ** The modes of the run *)

Lemma assemble_getpart (w : world) (a : args) (p : partitions)
    (ds : gmap string (list record)) :
  assemble w a p = Ok ds ->
  (forall tr, train_data p = Some tr -> getpart ds "train" = Ok (sample a tr))
  /\ (forall va, valid_data p = Some va -> getpart ds "validation" = Ok va)
  /\ (valid_data p = None -> getpart ds "validation" = Raise (KeyError (VStr "validation")))
  /\ (forall te, test_data p = Some te -> getpart ds "test" = Ok te).
Proof.
  intros H. apply assemble_Ok in H as (Ht & Hv & Hs). unfold getpart.
  rewrite Ht, Hv, Hs. repeat split.
  - intros tr ->. reflexivity.
  - intros va ->. reflexivity.
  - intros ->. reflexivity.
  - intros te ->. reflexivity.
Qed.

Lemma main_reaches_dispatch (w : world) (a : args) (tn : target) (p : partitions)
    (ds : gmap string (list record)) :
  resolve_task a = Ok tn -> load_partitions w a tn = Ok p -> assemble w a p = Ok ds ->
  main w a = dispatch w a p ds.
Proof.
  intros Ht Hp Hd. unfold main. rewrite Ht. simpl. rewrite Hp. simpl. rewrite Hd. simpl.
  destruct (dispatch w a p ds). reflexivity.
Qed.

(** X10. In the mode [train], when the data load and assemble, the model
    builds and the partitions tokenise, the library is asked to fit exactly
    once: on the train partition, truncated by [debug_sample_size] first and
    shuffled after, and on the validation partition when [do_eval] is not 0,
    on no validation data when it is 0, in which case the validation
    partition is not needed at all. *)
Theorem train_mode_fits_once (w : world) (a : args) (tn : target) (p : partitions)
    (ds : gmap string (list record)) (train : list record) (valid : option (list record)) :
  mode a = "train" ->
  resolve_task a = Ok tn -> load_partitions w a tn = Ok p -> assemble w a p = Ok ds ->
  train_data p = Some train ->
  build_model w (model_name a) (contains "llama" (lower (model_name a))) = None ->
  tokenize w (shuffle w (sample a train)) = None ->
  (do_eval a = 0 /\ valid = None
   \/ do_eval a <> 0 /\ valid_data p = valid
      /\ exists va, valid = Some va /\ tokenize w va = None) ->
  main w a = ([Fit (shuffle w (sample a train)) valid],
              check (fit w (shuffle w (sample a train)) valid)).
Proof.
  intros Hm Ht Hp Hd Htr Hb Htok Hv.
  rewrite (main_reaches_dispatch w a tn p ds Ht Hp Hd).
  destruct (assemble_getpart w a p ds Hd) as (Gt & Gv & _ & _).
  unfold dispatch. rewrite Hm. simpl. unfold train_mode, tokenized, call, lift, emit.
  rewrite Hb. cbn [pbind check]. rewrite (Gt train Htr). cbn [pbind].
  rewrite Htok. cbn [pbind check].
  destruct Hv as [[H0 ->] | (Hn & Hvd & va & -> & Hva)].
  - rewrite bool_decide_eq_false_2 by (intros H; apply H; exact H0). cbn [pbind].
    destruct (check (fit w (shuffle w (sample a train)) None)); reflexivity.
  - rewrite bool_decide_eq_true_2 by exact Hn. rewrite (Gv va Hvd). cbn [pbind].
    rewrite Hva. cbn [pbind check].
    destruct (check (fit w (shuffle w (sample a train)) (Some va))); reflexivity.
Qed.

(** X10 on the sample world, task STS-B, one train record out of two. *)
Lemma train_mode_fits_once_witness :
  main sample_world (sample_args "train" "STS-B" (Some 1))
    = ([Fit [sample_sts_record]
            (Some [ {[ "text1" := VStr "a cat"; "text2" := VStr "a cat";
                       "label" := VFloat 5%float ]} ])], Ok tt).
Proof.
  apply (train_mode_fits_once sample_world (sample_args "train" "STS-B" (Some 1))
           (Tuple ["mteb/stsbenchmark-sts"]) sample_sts_partitions
           {[ "train" := [sample_sts_record];
              "validation" := [ {[ "text1" := VStr "a cat"; "text2" := VStr "a cat";
                                   "label" := VFloat 5%float ]} ];
              "test" := [record_label_7_5] ]}
           [sample_sts_record; record_label_7_5]);
    try reflexivity; try (vm_compute; reflexivity).
  right. split; [discriminate|]. split; [reflexivity|].
  eexists. split; reflexivity.
Defined.

(** X11. In the mode [test], when the data load and assemble, the model is
    restored and the test partition tokenises, the library is asked to
    evaluate exactly once, on the test partition, and nothing is fitted;
    [debug_sample_size] has no part in what is evaluated. *)
Theorem test_mode_evaluates_test_partition (w : world) (a : args) (tn : target)
    (p : partitions) (ds : gmap string (list record)) (test : list record) :
  mode a = "test" ->
  resolve_task a = Ok tn -> load_partitions w a tn = Ok p -> assemble w a p = Ok ds ->
  test_data p = Some test ->
  from_pretrained w (save_dir a) = None ->
  tokenize w test = None ->
  main w a = ([Evaluate test], _ <- evaluate w test;; Ok tt).
Proof.
  intros Hm Ht Hp Hd Hte Hf Htok.
  rewrite (main_reaches_dispatch w a tn p ds Ht Hp Hd).
  destruct (assemble_getpart w a p ds Hd) as (_ & _ & _ & Gs).
  unfold dispatch. rewrite Hm. simpl. unfold test_mode, tokenized, call, lift, emit.
  rewrite Hf. cbn [pbind check]. rewrite (Gs test Hte). cbn [pbind].
  rewrite Htok. cbn [pbind check].
  destruct (evaluate w test); reflexivity.
Qed.

(** X11 on the sample world, task QQP: the validation record is evaluated. *)
Lemma test_mode_evaluates_test_partition_witness :
  main sample_world (sample_args "test" "QQP" (Some 1))
    = ([Evaluate [pair_record "v1" "v2" 0]], Ok tt).
Proof.
  apply (test_mode_evaluates_test_partition sample_world (sample_args "test" "QQP" (Some 1))
           (Tuple ["SetFit/qqp"]) sample_partitions
           {[ "train" := [pair_record "q1" "q2" 1];
              "validation" := [pair_record "v1" "v2" 0];
              "test" := [pair_record "v1" "v2" 0] ]});
    try reflexivity; vm_compute; reflexivity.
Defined.

Lemma load_partitions_nli (w : world) (a : args) (tn : target) (p : partitions) :
  task a = "NLI-STS" -> load_partitions w a tn = Ok p ->
  exists nli sts, load_nli_data w true = Ok (nli, sts)
                  /\ p = {| train_data := Some nli; valid_data := None; test_data := Some sts |}.
Proof.
  intros Ht H. unfold load_partitions in H. rewrite Ht in H. simpl in H.
  apply bind_Ok in H as ([nli sts] & Hl & H). inversion H.
  exists nli, sts. split; [exact Hl | reflexivity].
Qed.

(** X12. For the task NLI-STS there is no validation partition, so a run in
    the mode [train] with [do_eval] other than 0 (its default is 1) never
    reaches the fit: once the data are loaded and assembled, the model built
    and the train partition tokenised, it ends by the [KeyError] of
    [validation]. With [do_eval] at 0 the same run fits. *)
Theorem nli_sts_train_needs_do_eval_off (w : world) (a : args) (tn : target)
    (p : partitions) (ds : gmap string (list record)) (train : list record) :
  task a = "NLI-STS" -> mode a = "train" ->
  resolve_task a = Ok tn -> load_partitions w a tn = Ok p -> assemble w a p = Ok ds ->
  train_data p = Some train ->
  build_model w (model_name a) (contains "llama" (lower (model_name a))) = None ->
  tokenize w (shuffle w (sample a train)) = None ->
  (do_eval a <> 0 -> main w a = ([], Raise (KeyError (VStr "validation"))))
  /\ (do_eval a = 0 ->
      main w a = ([Fit (shuffle w (sample a train)) None],
                  check (fit w (shuffle w (sample a train)) None))).
Proof.
  intros Hta Hm Ht Hp Hd Htr Hb Htok.
  destruct (load_partitions_nli w a tn p Hta Hp) as (nli & sts & _ & Hpe).
  assert (Hv : valid_data p = None) by (rewrite Hpe; reflexivity).
  rewrite (main_reaches_dispatch w a tn p ds Ht Hp Hd).
  destruct (assemble_getpart w a p ds Hd) as (Gt & _ & Gv & _).
  unfold dispatch. rewrite Hm. simpl. unfold train_mode, tokenized, call, lift, emit.
  rewrite Hb. cbn [pbind check]. rewrite (Gt train Htr). cbn [pbind].
  rewrite Htok. cbn [pbind check]. split.
  - intros Hn. rewrite bool_decide_eq_true_2 by exact Hn. rewrite (Gv Hv). reflexivity.
  - intros H0. rewrite bool_decide_eq_false_2 by (intros H; apply H; exact H0). cbn [pbind].
    destruct (check (fit w (shuffle w (sample a train)) None)); reflexivity.
Qed.

(** X12 on the world of the task NLI-STS, with [do_eval] at 1 and at 0. *)
Lemma nli_sts_train_needs_do_eval_off_witness :
  main nli_world (nli_args 1) = ([], Raise (KeyError (VStr "validation")))
  /\ main nli_world (nli_args 0)
     = ([Fit [ {[ "text1" := VStr "A man eats."; "text2" := VStr "Nobody eats.";
                  "label" := VInt 0 ]} ] None], Ok tt).
Proof.
  assert (H : forall d,
             (do_eval (nli_args d) <> 0 ->
              main nli_world (nli_args d) = ([], Raise (KeyError (VStr "validation"))))
             /\ (do_eval (nli_args d) = 0 ->
                 main nli_world (nli_args d)
                 = ([Fit [ {[ "text1" := VStr "A man eats."; "text2" := VStr "Nobody eats.";
                              "label" := VInt 0 ]} ] None], Ok tt))).
  { intros d.
    apply (nli_sts_train_needs_do_eval_off nli_world (nli_args d) (Name "nli-sts")
             {| train_data := Some [ {[ "text1" := VStr "A man eats.";
                                        "text2" := VStr "Nobody eats."; "label" := VInt 0 ]} ];
                valid_data := None;
                test_data := Some (replicate 7 ({[ "text1" := VStr "a cat"; "text2" := VStr "a cat";
                                                   "label" := VFloat 5%float ]} : record)) |}
             {[ "train" := [ {[ "text1" := VStr "A man eats."; "text2" := VStr "Nobody eats.";
                                "label" := VInt 0 ]} ];
                "test" := replicate 7 ({[ "text1" := VStr "a cat"; "text2" := VStr "a cat";
                                          "label" := VFloat 5%float ]} : record) ]}
             [ {[ "text1" := VStr "A man eats."; "text2" := VStr "Nobody eats.";
                  "label" := VInt 0 ]} ]);
      try reflexivity; vm_compute; reflexivity. }
  split; [apply (H 1); discriminate | apply (H 0); reflexivity].
Defined.




(** ** The assembly of the dataset *)

Lemma assemble_other_keys (w : world) (a : args) (p : partitions)
    (ds : gmap string (list record)) (k : string) :
  assemble w a p = Ok ds -> k <> "train" -> k <> "validation" -> k <> "test" ->
  ds !! k = None.
Proof.
  unfold assemble. intros H Kt Kv Ks.
  apply bind_Ok in H as (d1 & H1 & H). apply bind_Ok in H as (d2 & H2 & H).
  assert (E1 : d1 !! k = None).
  { destruct (train_data p) as [train|].
    - apply add_part_Ok in H1. subst d1. rewrite lookup_insert_ne by congruence.
      apply lookup_empty.
    - inversion H1. apply lookup_empty. }
  assert (E2 : d2 !! k = None).
  { destruct (valid_data p) as [valid|].
    - apply add_part_Ok in H2. subst d2. rewrite lookup_insert_ne by congruence. exact E1.
    - inversion H2. subst d2. exact E1. }
  destruct (test_data p) as [test|].
  - apply add_part_Ok in H. subst ds. rewrite lookup_insert_ne by congruence. exact E2.
  - inversion H. subst ds. exact E2.
Qed.

(** X14. The dataset assembles exactly when [Dataset.from_list] accepts
    each partition that is not [None], the train partition as truncated by
    [debug_sample_size]; the assembled dictionary then has the key of a
    partition exactly when that partition is not [None], and no other key. *)
Theorem assemble_iff (w : world) (a : args) (p : partitions) :
  ((exists ds, assemble w a p = Ok ds) <->
   (forall tr, train_data p = Some tr -> from_list w (sample a tr) = None)
   /\ (forall va, valid_data p = Some va -> from_list w va = None)
   /\ (forall te, test_data p = Some te -> from_list w te = None))
  /\ (forall ds, assemble w a p = Ok ds ->
        forall k, is_Some (ds !! k) <->
                  (k = "train" /\ is_Some (train_data p))
                  \/ (k = "validation" /\ is_Some (valid_data p))
                  \/ (k = "test" /\ is_Some (test_data p))).
Proof.
  split.
  - split.
    + intros [ds H]. unfold assemble in H.
      apply bind_Ok in H as (d1 & H1 & H). apply bind_Ok in H as (d2 & H2 & H).
      split; [|split].
      * intros tr Htr. rewrite Htr in H1. unfold add_part in H1.
        destruct (from_list w (sample a tr)); [discriminate | reflexivity].
      * intros va Hva. rewrite Hva in H2. unfold add_part in H2.
        destruct (from_list w va); [discriminate | reflexivity].
      * intros te Hte. rewrite Hte in H. unfold add_part in H.
        destruct (from_list w te); [discriminate | reflexivity].
    + intros (H1 & H2 & H3). unfold assemble, add_part.
      destruct (train_data p) as [tr|]; [rewrite (H1 tr eq_refl)|]; simpl;
        (destruct (valid_data p) as [va|]; [rewrite (H2 va eq_refl)|]; simpl;
         (destruct (test_data p) as [te|]; [rewrite (H3 te eq_refl)|]; simpl;
          eexists; reflexivity)).
  - intros ds H k. pose proof (assemble_Ok w a p ds H) as (Ht & Hv & Hs).
    destruct (decide (k = "train")) as [->|Kt].
    { rewrite Ht, fmap_is_Some. split.
      - intros Hsome. left. split; [reflexivity | exact Hsome].
      - intros [[_ Hsome] | [[Hk _] | [Hk _]]]; [exact Hsome | discriminate | discriminate]. }
    destruct (decide (k = "validation")) as [->|Kv].
    { rewrite Hv. split.
      - intros Hsome. right. left. split; [reflexivity | exact Hsome].
      - intros [[Hk _] | [[_ Hsome] | [Hk _]]]; [discriminate | exact Hsome | discriminate]. }
    destruct (decide (k = "test")) as [->|Ks].
    { rewrite Hs. split.
      - intros Hsome. right. right. split; [reflexivity | exact Hsome].
      - intros [[Hk _] | [[Hk _] | [_ Hsome]]]; [discriminate | discriminate | exact Hsome]. }
    rewrite (assemble_other_keys w a p ds k H Kt Kv Ks). split.
    + intros Hsome. apply is_Some_None in Hsome. destruct Hsome.
    + intros [[Hk _] | [[Hk _] | [Hk _]]]; congruence.
Qed.

(** ** The loop of the mode [test_csts] and the rows of C-STS that fail *)

(** X15. The body of the loop of [test_csts] reads the condition of an
    example and does nothing with it: two examples with the same two texts
    get the same prompts, the same index and the same similarity whatever
    their conditions are. An example without a [condition] field is a
    [KeyError] before anything is encoded, which is the case of every record
    the hub loader makes. *)
Theorem csts_example_ignores_condition (w : world) (i : nat) :
  (forall r1 r2 : record,
     r1 !! "text1" = r2 !! "text1" -> r1 !! "text2" = r2 !! "text2" ->
     is_Some (r1 !! "condition") -> is_Some (r2 !! "condition") ->
     csts_example w i r1 = csts_example w i r2)
  /\ (forall r : record,
        is_Some (r !! "text1") -> r !! "condition" = None ->
        csts_example w i r = ([], Raise (KeyError (VStr "condition"))))
  /\ (forall task obj r,
        normalize (conv w) task obj = Ok r ->
        csts_example w i r = ([], Raise (KeyError (VStr "condition")))).
Proof.
  assert (Hnone : forall r : record,
             is_Some (r !! "text1") -> r !! "condition" = None ->
             csts_example w i r = ([], Raise (KeyError (VStr "condition")))).
  { intros r [t1 H1] Hc. unfold csts_example, getitem, lift. rewrite H1, Hc. reflexivity. }
  split; [|split; [exact Hnone|]].
  - intros r1 r2 E1 E2 [c1 H1] [c2 H2]. unfold csts_example, getitem, lift.
    rewrite E1, E2, H1, H2.
    destruct (r2 !! "text1"); [|reflexivity].
    destruct (r2 !! "text2"); reflexivity.
  - intros task obj r H. unfold normalize in H. destruct (columns task) as [col1 col2].
    apply bind_Ok in H as (t1 & _ & H). apply bind_Ok in H as (t2 & _ & H).
    apply bind_Ok in H as (l & _ & H). inversion H. apply Hnone.
    + eexists. reflexivity.
    + reflexivity.
Qed.

Lemma csts_loop_app (xs ys : list row) (st : Csts.state) :
  Csts.loop st (xs ++ ys)%list = (st' <- Csts.loop st xs;; Csts.loop st' ys).
Proof.
  revert st. induction xs as [|x xs IH]; intros st; simpl; [reflexivity|].
  destruct (Csts.step st x) as [st1|e]; simpl; [apply IH | reflexivity].
Qed.

(** X16. The C-STS loader gives all the records of a file or none, and it
    needs a label on every row: after any rows that load, a row with its
    three texts and no [label] column, as in a test file without labels,
    makes the whole load raise the [KeyError] of [label], and a row whose
    first sentence is [None] (an empty cell) makes it raise
    [AttributeError]. *)
Theorem csts_rows_that_fail (before after : list row) (recs : list record) (obj : row) :
  Forall2 csts_record before recs ->
  (forall s1 s2 c,
     obj !! "sentence1" = Some (VStr s1) -> obj !! "sentence2" = Some (VStr s2) ->
     obj !! "condition" = Some (VStr c) -> obj !! "label" = None ->
     Csts.load_data (before ++ obj :: after)%list = Raise (KeyError (VStr "label")))
  /\ (obj !! "sentence1" = Some VNone ->
      Csts.load_data (before ++ obj :: after)%list = Raise AttributeError).
Proof.
  intros Hb. destruct (csts_loop_total before recs Hb Csts.init) as (st & Hloop & _).
  assert (Hstep : forall e, Csts.step st obj = Raise e ->
                            Csts.load_data (before ++ obj :: after)%list = Raise e).
  { intros e He. unfold Csts.load_data. rewrite csts_loop_app, Hloop. simpl.
    rewrite He. reflexivity. }
  split.
  - intros s1 s2 c H1 H2 Hc Hl. apply Hstep. unfold Csts.step.
    unfold getitem at 1. rewrite H1. cbn [bind strip_value].
    unfold getitem at 1. rewrite lookup_insert_ne by discriminate. rewrite H2.
    cbn [bind strip_value].
    unfold getitem at 1. rewrite !lookup_insert_ne by discriminate. rewrite Hc.
    cbn [bind strip_value].
    unfold getitem at 1. rewrite !lookup_insert_ne by discriminate. rewrite Hl.
    reflexivity.
  - intros H1. apply Hstep. unfold Csts.step, getitem. rewrite H1. reflexivity.
Qed.

(** X16 on a file whose second row has no label. *)
Lemma csts_rows_that_fail_witness :
  Csts.load_data [csts_row_dup; csts_row_unlabelled; csts_row_dup]
    = Raise (KeyError (VStr "label")).
Proof.
  destruct (csts_rows_that_fail [csts_row_dup] [csts_row_dup] [csts_record_dup]
              csts_row_unlabelled) as (H & _).
  - apply (csts_load_data_Forall2 [csts_row_dup] [csts_record_dup]).
    vm_compute. reflexivity.
  - apply (H "A dog runs." "A cat sleeps." "The animal"); reflexivity.
Defined.

(** ** The STS test sets of the task NLI-STS *)

(** X17. The test partition of the task NLI-STS is made of the [test]
    splits of seven datasets and of nothing else: STS12 to STS16, the STS
    benchmark and SICK-R, read in that order and put end to end; the load
    succeeds exactly when each of the seven does. *)
Theorem load_sts_is_seven_test_sets (w : world) (recs : list record) :
  Nli.load_sts w = Ok recs <->
  exists parts, Forall2 (fun path part => Nli.load_test w path = Ok part) sts_paths parts
                /\ recs = concat parts.
Proof.
  unfold Nli.load_sts, sts_paths.
  change (seqZ 12 5) with [12; 13; 14; 15; 16].
  cbn [for_each].
  change ("./data/mteb___sts" ++ pretty 12 ++ "-sts") with "./data/mteb___sts12-sts".
  change ("./data/mteb___sts" ++ pretty 13 ++ "-sts") with "./data/mteb___sts13-sts".
  change ("./data/mteb___sts" ++ pretty 14 ++ "-sts") with "./data/mteb___sts14-sts".
  change ("./data/mteb___sts" ++ pretty 15 ++ "-sts") with "./data/mteb___sts15-sts".
  change ("./data/mteb___sts" ++ pretty 16 ++ "-sts") with "./data/mteb___sts16-sts".
  split.
  - intros H.
    destruct (Nli.load_test w "./data/mteb___sts12-sts") as [p12|] eqn:Ep12; [|discriminate].
    destruct (Nli.load_test w "./data/mteb___sts13-sts") as [p13|] eqn:Ep13; [|discriminate].
    destruct (Nli.load_test w "./data/mteb___sts14-sts") as [p14|] eqn:Ep14; [|discriminate].
    destruct (Nli.load_test w "./data/mteb___sts15-sts") as [p15|] eqn:Ep15; [|discriminate].
    destruct (Nli.load_test w "./data/mteb___sts16-sts") as [p16|] eqn:Ep16; [|discriminate].
    destruct (Nli.load_test w "./data/mteb___stsbenchmark-sts") as [pb|] eqn:Epb; [|discriminate].
    destruct (Nli.load_test w "./data/mteb___sickr-sts") as [ps|] eqn:Eps; [|discriminate].
    simpl in H. inversion H.
    exists [p12; p13; p14; p15; p16; pb; ps]. split; [repeat constructor; assumption|].
    simpl. rewrite ?app_nil_r, <- ?app_assoc. reflexivity.
  - intros (parts & Hparts & ->).
    repeat match goal with
           | H : Forall2 _ (_ :: _) _ |- _ =>
               apply Forall2_cons_inv_l in H as (? & ? & ? & H & ->)
           | H : Forall2 _ [] _ |- _ => apply Forall2_nil_inv_l in H; subst
           end.
    repeat match goal with H : Nli.load_test w _ = Ok _ |- _ => rewrite H; clear H end.
    simpl. rewrite ?app_nil_r, <- ?app_assoc. reflexivity.
Qed.
